(** * DataNexus: the table transformations of [app.py]

    [app.py] is a Streamlit script: every user interaction re-runs it from
    the top against [st.session_state], which holds the current DataFrame
    under the key ['df'] and the uploaded file's name under ['file_name'].
    The development has two layers.

    - [Pandas]: the DataFrame operations the script calls ([df[col]],
      [df.drop(columns=...)], [fillna], [mean], [dropna], boolean-mask
      selection, [select_dtypes], [empty], [corr], [to_csv]) on a
      column-major table, as pandas documents them.
    - [App]: the script's own code, one function per button or tab, as a
      transition on the session that also returns the messages emitted and
      how the run ended (rerun, stop, ran to the end, uncaught exception).

    After the definitions come the facts, by topic: dropping columns,
    imputing, filtering, the correlation tab, loading, exporting, then
    what every run of the Transformation page keeps, how the operations
    compose, the missing-data tab, and file names.

    Numbers.  A float64 is an IEEE 754 binary64 value, carried by the
    Standard Library's [spec_float] at precision 53 and maximal exponent
    1024, with its correctly rounded operations ([F64]).  An int64 or bool
    cell is converted to float64, rounding to nearest even, wherever
    numpy converts it: in a comparison with the slider's floats and in
    [mean].  The order in which numpy adds up the cells of a column is
    numpy's own; the sum is a parameter ([np_sum]) of [mean] and of what
    uses it. *)

From Stdlib Require Import List String Ascii Bool Arith ZArith QArith Lia.
From Stdlib Require Import Floats.SpecFloat.
Import ListNotations.

Local Open Scope string_scope.
Local Open Scope list_scope.

(** ** Generic list helpers *)

Module Lists.

(** [l[mask]]: the elements of [l] whose position carries [true]. *)
Fixpoint select {A : Type} (mask : list bool) (l : list A) : list A :=
  match mask, l with
  | b :: mask', x :: l' => if b then x :: select mask' l' else select mask' l'
  | _, _ => []
  end.

Definition count_true (mask : list bool) : nat :=
  List.length (filter (fun b => b) mask).

Definition mem (x : string) (l : list string) : bool :=
  existsb (String.eqb x) l.

(** Row view of column-major data: [n] rows, one cell per column. *)
Fixpoint transpose {A : Type} (d : A) (n : nat) (cols : list (list A))
  : list (list A) :=
  match n with
  | O => []
  | S n' => map (hd d) cols :: transpose d n' (map (@tl A) cols)
  end.

End Lists.

(** ** The csv writer *)

Module Csv.

Definition comma : ascii := ascii_of_nat 44.
Definition dquote : ascii := ascii_of_nat 34.
Definition lf : ascii := ascii_of_nat 10.
Definition cr : ascii := ascii_of_nat 13.

(** Python's [csv.writer] as pandas sets it up: comma delimiter, double
    quote as quote character, [QUOTE_MINIMAL], [doublequote], line
    terminator [\n].  [quotes_cr] says whether a carriage return makes
    a field quoted, as a line feed does; Python 3.13 made it so. *)
Section Writer.
Variable quotes_cr : bool.

Definition special (a : ascii) : bool :=
  Ascii.eqb a comma || Ascii.eqb a dquote || Ascii.eqb a lf
  || (quotes_cr && Ascii.eqb a cr).

Fixpoint needs_quotes (field : string) : bool :=
  match field with
  | EmptyString => false
  | String a rest => special a || needs_quotes rest
  end.

Fixpoint doubled (field : string) : string :=
  match field with
  | EmptyString => EmptyString
  | String a rest =>
      if Ascii.eqb a dquote then String dquote (String dquote (doubled rest))
      else String a (doubled rest)
  end.

Definition write_field (field : string) : string :=
  if needs_quotes field
  then String dquote (doubled field ++ String dquote EmptyString)%string
  else field.

(** [writerow]: the fields joined by commas, then the terminator.  A
    record that would come out empty, a lone empty field, is written as
    two double quotes. *)
Definition write_record (fields : list string) : string :=
  match fields,
        String.concat (String comma EmptyString) (map write_field fields)
  with
  | _ :: _, EmptyString => String dquote (String dquote (String lf EmptyString))
  | _, line => (line ++ String lf EmptyString)%string
  end.

Definition write_records (records : list (list string)) : string :=
  String.concat "" (map write_record records).
End Writer.






End Csv.

(** ** binary64 *)

Module F64.

Definition float : Set := spec_float.

Definition prec : Z := 53.
Definition emax : Z := 1024.

(** The float64 nearest to an integer, ties to even: what a cast of an
    int64 gives. *)
Definition of_Z (z : Z) : float := binary_normalize prec emax z 0 false.

Definition add : float -> float -> float := SFadd prec emax.
Definition div : float -> float -> float := SFdiv prec emax.

(** [x <= y]; [false] as soon as one side is NaN. *)
Definition leb : float -> float -> bool := SFleb.
Definition eqb : float -> float -> bool := SFeqb.

Definition nan : float := S754_nan.
Definition zero : float := S754_zero false.
Definition one : float := of_Z 1.

Definition is_nan (x : float) : bool :=
  match x with S754_nan => true | _ => false end.

(** A mantissa on its way through the right shift of rounding, read with
    its round and sticky bits as one integer: a greater integer stands
    for a greater value. *)
Definition shr_code (mrs : shr_record) : Z :=
  (4 * shr_m mrs + (if shr_r mrs then 2 else 0)
   + (if shr_s mrs then 1 else 0))%Z.

(** The exact value of a finite float, [m * 2^e] with its sign. *)
Definition to_Q (x : float) : option Q :=
  match x with
  | S754_zero _ => Some 0%Q
  | S754_finite s m e =>
      let v := (inject_Z (Zpos m) * Qpower 2 e)%Q in
      Some (if s then Qopp v else v)
  | _ => None
  end.

End F64.

(** ** The pandas layer *)

Module Pandas.
Import Lists.

(** The column dtypes [pd.read_csv] infers. *)
Inductive Dtype := int64 | float64 | bool_ | object_.

(** A cell.  [VNaN] is the missing marker; it lives in float64 and object
    columns only (see [cell_ok]). *)
Inductive Value :=
| VInt (z : Z)
| VFloat (x : F64.float)
| VBool (b : bool)
| VStr (s : string)
| VNaN.

Record Series := { dtype : Dtype; values : list Value }.

(** A DataFrame: the row labels and the named columns, in order. *)
Record DataFrame := { index : list Z; columns : list (string * Series) }.

(** [KeyError] with the labels not found; [KeyError(None)] of [df[None]];
    Streamlit's exception for a widget it refuses. *)
Inductive Exception :=
| KeyError (labels : list string)
| KeyErrorNone
| StreamlitAPIException.

Definition cell_ok (t : Dtype) (v : Value) : bool :=
  match t, v with
  | int64, VInt _ => true
  | float64, VFloat x => negb (F64.is_nan x)
  | float64, VNaN => true
  | bool_, VBool _ => true
  | object_, _ => true
  | _, _ => false
  end.

(** Every column is as long as the index. *)
Definition aligned (df : DataFrame) : Prop :=
  Forall (fun c => List.length (values (snd c)) = List.length (index df))
         (columns df).

(** Every cell has a value of its column's dtype. *)
Definition typed (df : DataFrame) : Prop :=
  Forall (fun c => forallb (cell_ok (dtype (snd c))) (values (snd c)) = true)
         (columns df).

Definition column_names (df : DataFrame) : list string :=
  map fst (columns df).

(** [df.shape[0]] *)
Definition nrows (df : DataFrame) : nat := List.length (index df).

(** [df[col]]: the column named [col], [KeyError] when there is none. *)
Definition getitem (df : DataFrame) (col : string) : Exception + Series :=
  match find (fun c => String.eqb (fst c) col) (columns df) with
  | Some c => inr (snd c)
  | None => inl (KeyError [col])
  end.

(** [df.columns.get_loc(col)]: the position of the column [df[col]]. *)
Fixpoint get_loc (col : string) (cs : list (string * Series)) : option nat :=
  match cs with
  | [] => None
  | c :: cs' =>
      if String.eqb (fst c) col then Some O
      else option_map S (get_loc col cs')
  end.

(** [df[col] = s]: replaces the column in place, appends it when new. *)
Fixpoint set_column (col : string) (s : Series) (cs : list (string * Series))
  : list (string * Series) :=
  match cs with
  | [] => [(col, s)]
  | c :: cs' =>
      if String.eqb (fst c) col then (col, s) :: cs'
      else c :: set_column col s cs'
  end.

Definition setitem (df : DataFrame) (col : string) (s : Series) : DataFrame :=
  {| index := index df; columns := set_column col s (columns df) |}.

(** [df.drop(columns=labels)] with the default [errors='raise']: every label
    must name a column, else [KeyError] lists the labels not found. *)
Definition drop (labels : list string) (df : DataFrame)
  : Exception + DataFrame :=
  match filter (fun l => negb (mem l (column_names df))) labels with
  | [] =>
      inr {| index := index df;
             columns := filter (fun c => negb (mem (fst c) labels))
                               (columns df) |}
  | missing => inl (KeyError missing)
  end.

(** [pd.api.types.is_numeric_dtype]: numpy's number types and bool. *)
Definition is_numeric_dtype (s : Series) : bool :=
  match dtype s with
  | int64 | float64 | bool_ => true
  | object_ => false
  end.

Definition isna (v : Value) : bool :=
  match v with VNaN => true | _ => false end.

(** The float64 a numeric cell is converted to, an int64 by rounding;
    [None] for the missing marker (and for a string, which no numeric
    column holds). *)
Definition to_float (v : Value) : option F64.float :=
  match v with
  | VInt z => Some (F64.of_Z z)
  | VFloat x => Some x
  | VBool b => Some (if b then F64.one else F64.zero)
  | VStr _ => None
  | VNaN => None
  end.

(** [s >= x] and [s <= x], elementwise: a comparison with NaN is [False]. *)
Definition ge_scalar (x : F64.float) (v : Value) : bool :=
  match to_float v with Some q => F64.leb x q | None => false end.

Definition le_scalar (x : F64.float) (v : Value) : bool :=
  match to_float v with Some q => F64.leb q x | None => false end.

(** [df[mask]]: the rows where [mask] holds, labels kept. *)
Definition mask_rows (mask : list bool) (df : DataFrame) : DataFrame :=
  {| index := select mask (index df);
     columns := map (fun c => (fst c, {| dtype := dtype (snd c);
                                         values := select mask (values (snd c)) |}))
                    (columns df) |}.

(** [s.fillna(fill)]: missing cells become [fill], the rest is kept. *)
Definition fillna (fill : Value) (s : Series) : Series :=
  {| dtype := dtype s;
     values := map (fun v => if isna v then fill else v) (values s) |}.

(** The non-missing values of a column, as floats. *)
Definition non_missing (s : Series) : list F64.float :=
  flat_map (fun v => match to_float v with Some q => [q] | None => [] end)
           (values s).

(** The cells as [nanmean] hands them to [sum]: as floats, the missing
    ones as 0. *)
Definition zero_filled (s : Series) : list F64.float :=
  map (fun v => match to_float v with Some q => q | None => F64.zero end)
      (values s).

(** A float as a cell: NaN is the missing marker. *)
Definition of_float (x : F64.float) : Value :=
  if F64.is_nan x then VNaN else VFloat x.

(** [s.mean()] with the default [skipna=True], as [nanops.nanmean]
    computes it: numpy's sum of the cells, the missing ones counted as 0,
    divided in float64 by the number of cells present; NaN when none is
    present.  [np_sum] is numpy's [sum] of a float64 array. *)
Definition mean (np_sum : list F64.float -> F64.float) (s : Series) : Value :=
  match non_missing s with
  | [] => VNaN
  | l => of_float (F64.div (np_sum (zero_filled s))
                           (F64.of_Z (Z.of_nat (List.length l))))
  end.

(** The scalar [0] as [fillna(0)] stores it in a column of dtype [t]. *)
Definition zero_of (t : Dtype) : Value :=
  match t with
  | float64 => VFloat F64.zero
  | _ => VInt 0%Z
  end.

(** [df.dropna(subset=[col])]: the rows whose cell in [col] is present. *)
Definition dropna (col : string) (df : DataFrame) : Exception + DataFrame :=
  match getitem df col with
  | inl e => inl e
  | inr s => inr (mask_rows (map (fun v => negb (isna v)) (values s)) df)
  end.

(** [df.select_dtypes(include=['float64', 'int64'])] *)
Definition select_dtypes (df : DataFrame) : DataFrame :=
  {| index := index df;
     columns := filter (fun c => match dtype (snd c) with
                                 | float64 | int64 => true
                                 | _ => false
                                 end) (columns df) |}.

(** [df.empty]: some axis has length 0. *)
Definition empty (df : DataFrame) : bool :=
  match index df, columns df with
  | [], _ => true
  | _, [] => true
  | _, _ => false
  end.

(** The row view: each row is its label followed by its cells. *)
Definition rows (df : DataFrame) : list (list Value) :=
  transpose VNaN (nrows df)
            (map VInt (index df) :: map (fun c => values (snd c)) (columns df)).

(** The cells alone, row by row, as [to_csv(index=False)] walks them. *)
Definition cells (df : DataFrame) : list (list Value) :=
  transpose VNaN (nrows df) (map (fun c => values (snd c)) (columns df)).

(** [df.corr()] over the columns of [df]: the square matrix of pairwise
    Pearson coefficients, labelled by the column names.  The coefficient of
    two columns is pandas' own computation and is taken as given. *)
Definition corr (pearson : list Value -> list Value -> Value)
           (df : DataFrame) : list string * list (list Value) :=
  (column_names df,
   map (fun a => map (fun b => pearson (values (snd a)) (values (snd b)))
                     (columns df))
       (columns df)).

(** [df.to_csv(index=False)]: the header record, then one record per row,
    no index field, written by the csv writer with the line terminator of
    Linux.  How a cell prints ([fmt]: a float by its shortest
    representation, a missing cell as the empty string) is pandas' and is
    taken as given. *)
Section ToCsv.
Variable quotes_cr : bool.
Variable fmt : Value -> string.

Definition to_csv_records (df : DataFrame) : list (list string) :=
  column_names df :: map (map fmt) (cells df).

Definition to_csv (df : DataFrame) : string :=
  Csv.write_records quotes_cr (to_csv_records df).
End ToCsv.

(** [s.isnull().sum()]: how many cells of the column are missing. *)
Definition isnull_sum (s : Series) : nat :=
  List.length (filter isna (values s)).

(** [df.isnull().sum()]: the count of missing cells, column by column. *)
Definition isnull_sums (df : DataFrame) : list (string * nat) :=
  map (fun c => (fst c, isnull_sum (snd c))) (columns df).

(** [.sum()] of a Series of counts. *)
Definition total (counts : list (string * nat)) : nat :=
  fold_right (fun c n => (snd c + n)%nat) 0%nat counts.

(** What [pd.read_csv] guarantees of a table and every operation of the
    script keeps: columns as long as the index, cells of their column's
    dtype, no column name twice. *)
Definition well_formed (df : DataFrame) : Prop :=
  aligned df /\ typed df /\ NoDup (column_names df).

(** The present cells of a column. *)
Definition present (s : Series) : list Value :=
  filter (fun v => negb (isna v)) (values s).

(** [a <= b] between two cells of one numeric column, in the column's own
    type: integers as integers, floats as floats, [False < True]. *)
Definition cell_leb (a b : Value) : bool :=
  match a, b with
  | VInt x, VInt y => (x <=? y)%Z
  | VFloat x, VFloat y => F64.leb x y
  | VBool x, VBool y => implb x y
  | _, _ => false
  end.

(** [s.min()] and [s.max()] with the default [skipna=True]: the least and
    the greatest present cell, in the column's own type (an int64 for an
    int64 column); NaN when no cell is present. *)
Definition series_min (s : Series) : Value :=
  match present s with
  | [] => VNaN
  | v :: l => fold_left (fun a b => if cell_leb a b then a else b) l v
  end.

Definition series_max (s : Series) : Value :=
  match present s with
  | [] => VNaN
  | v :: l => fold_left (fun a b => if cell_leb a b then b else a) l v
  end.

(** How many newline characters a text holds. *)
Fixpoint count_newlines (s : string) : nat :=
  match s with
  | EmptyString => 0
  | String a s' =>
      ((if Ascii.eqb a (ascii_of_nat 10) then 1 else 0) + count_newlines s')%nat
  end.

End Pandas.

(** ** The script *)

Module App.
Import Lists Pandas.

(** What a run shows: [st.error], [st.success], [st.info], [st.warning],
    [st.toast]. *)
Inductive Message :=
| error (text : string)
| success (text : string)
| info (text : string)
| warning (text : string)
| toast (text : string).

(** How a run ends: [st.rerun()], [st.stop()], the end of the script, or an
    exception nobody caught (Streamlit shows it and keeps the session). *)
Inductive Control :=
| Rerun
| Stop
| Done
| Raised (e : Exception).

(** [st.session_state] *)
Record Session := { df : option DataFrame; file_name : option string }.

(** [if 'df' not in st.session_state: ...] *)
Definition initial : Session := {| df := None; file_name := None |}.

Record Run := { session : Session; messages : list Message; control : Control }.

Definition with_df (s : Session) (d : DataFrame) : Session :=
  {| df := Some d; file_name := file_name s |}.

Definition no_data (s : Session) : Run :=
  {| session := s;
     messages := [warning "⚠️ No data loaded. Please go to the Ingestion module."];
     control := Done |}.

Definition raised (s : Session) (e : Exception) : Run :=
  {| session := s; messages := []; control := Raised e |}.

(** *** Ingestion *)

Record File := { name : string; content : string }.

(** [str.endswith] *)
Definition endswith (s suffix : string) : bool :=
  (String.length suffix <=? String.length s)%nat
  && String.eqb (substring (String.length s - String.length suffix)
                           (String.length suffix) s) suffix.

Section Loader.
(** [pd.read_csv] and [pd.read_excel]: a table, or the text of the
    exception the parser raised. *)
Variable read_csv : File -> string + DataFrame.
Variable read_excel : File -> string + DataFrame.

Definition load_error (e : string) : Message :=
  error ("❌ Error loading file: " ++ e)%string.

(** [load_data(file)]: the result and what it showed.  A name with
    neither suffix falls off the end of the [try] body.  ([st.cache_data]
    replays the same result and the same message on a repeated call.) *)
Definition load_data (file : File) : option DataFrame * list Message :=
  if endswith (name file) ".csv" then
    match read_csv file with
    | inr d => (Some d, [])
    | inl e => (None, [load_error e])
    end
  else if endswith (name file) ".xlsx" then
    match read_excel file with
    | inr d => (Some d, [])
    | inl e => (None, [load_error e])
    end
  else (None, []).

(** The Ingestion page, given what the uploader holds. *)
Definition ingestion (uploaded_file : option File) (s : Session) : Run :=
  match uploaded_file with
  | None => {| session := s; messages := []; control := Done |}
  | Some file =>
      match load_data file with
      | (Some d, shown) =>
          {| session := {| df := Some d; file_name := Some (name file) |};
             messages := shown ++ [toast "File successfully loaded!"];
             control := Done |}
      | (None, shown) =>
          {| session := s; messages := shown; control := Done |}
      end
  end.
End Loader.

(** *** Profiling: the correlation tab *)

Inductive CorrelationView :=
| Heatmap (labels : list string) (matrix : list (list Value))
| NotEnough (shown : Message).

(** How many columns [select_dtypes] keeps. *)
Definition numeric_columns (d : DataFrame) : nat :=
  List.length (columns (select_dtypes d)).

Definition not_enough : Message :=
  info "Not enough numeric columns to generate correlation matrix.".

Definition correlation_tab (pearson : list Value -> list Value -> Value)
           (d : DataFrame) : CorrelationView :=
  let numeric_df := select_dtypes d in
  if negb (empty numeric_df) then
    let '(labels, matrix) := corr pearson numeric_df in
    Heatmap labels matrix
  else NotEnough not_enough.

(** *** Transformation *)

(** "Execute Drop" with the multiselect's value. *)
Definition execute_drop (cols_to_drop : list string) (s : Session) : Run :=
  match df s with
  | None => no_data s
  | Some d =>
      match drop cols_to_drop d with
      | inl e => raised s e
      | inr d' =>
          {| session := with_df s d';
             messages := [success "Columns removed successfully."];
             control := Rerun |}
      end
  end.

(** What [st.multiselect(..., df.columns)] can return. *)
Definition offered (d : DataFrame) (cols_to_drop : list string) : Prop :=
  incl cols_to_drop (column_names d).

Inductive Method := DropRows | FillZero | FillMean.

Definition cannot_mean : Message :=
  error "Operation failed: Cannot calculate mean for non-numeric column.".

Definition applied (s : Session) (d : DataFrame) : Run :=
  {| session := with_df s d;
     messages := [success "Transformation applied."];
     control := Rerun |}.

(** "Apply Transformation" with the selectbox's column and the radio's
    method.  The two fill branches assign the column of the session's own
    DataFrame.  [np_sum] is numpy's [sum], which [mean] calls. *)
Definition apply_transformation (np_sum : list F64.float -> F64.float)
           (col_option : string) (method : Method) (s : Session) : Run :=
  match df s with
  | None => no_data s
  | Some d =>
      match method with
      | DropRows =>
          match dropna col_option d with
          | inl e => raised s e
          | inr d' => applied s d'
          end
      | FillZero =>
          match getitem d col_option with
          | inl e => raised s e
          | inr c => applied s (setitem d col_option (fillna (zero_of (dtype c)) c))
          end
      | FillMean =>
          match getitem d col_option with
          | inl e => raised s e
          | inr c =>
              if is_numeric_dtype c then
                applied s (setitem d col_option (fillna (mean np_sum c) c))
              else
                {| session := s; messages := [cannot_mean]; control := Stop |}
          end
      end
  end.

(** The mask of "Apply Filter": [(df[col] >= lo) & (df[col] <= hi)]. *)
Definition between (lo hi : F64.float) (v : Value) : bool :=
  ge_scalar lo v && le_scalar hi v.

(** "Apply Filter" with the selectbox's column and the slider's pair.  The
    slider and the button exist for a numeric column only. *)
Definition apply_filter (filter_col : string)
           (val_range : F64.float * F64.float)
           (s : Session) : Run :=
  match df s with
  | None => no_data s
  | Some d =>
      match getitem d filter_col with
      | inl e => raised s e
      | inr c =>
          if is_numeric_dtype c then
            {| session :=
                 with_df s (mask_rows (map (between (fst val_range)
                                                    (snd val_range))
                                           (values c)) d);
               messages := [success "Filter applied!"];
               control := Rerun |}
          else {| session := s; messages := []; control := Done |}
      end
  end.

(** *** Ingestion: the telemetry row *)

(** "Total Rows", "Total Columns" and "Missing Values":
    [df.shape[0]], [df.shape[1]], [df.isnull().sum().sum()]. *)
Definition total_rows (d : DataFrame) : nat := nrows d.
Definition total_columns (d : DataFrame) : nat := List.length (columns d).
Definition missing_values (d : DataFrame) : nat := total (isnull_sums d).

(** *** Profiling: the missing-data tab *)

Inductive MissingView :=
| BarChart (bars : list (string * nat))
| Clean (shown : Message).

Definition dataset_clean : Message :=
  success "✅ Dataset is clean. No missing values detected.".

(** [missing = df.isnull().sum()]; the chart shows [missing[missing > 0]]. *)
Definition missing_tab (d : DataFrame) : MissingView :=
  let missing := isnull_sums d in
  if (0 <? total missing)%nat then
    BarChart (filter (fun c => (0 <? snd c)%nat) missing)
  else Clean dataset_clean.

(** *** The Transformation page as a whole *)

(** The button pressed in a run of the page, with its widgets' values.  A
    run sees at most one button pressed. *)
Inductive Action :=
| ExecuteDrop (cols_to_drop : list string)
| ApplyTransformation (col_option : string) (method : Method)
| ApplyFilter (filter_col : string) (val_range : F64.float * F64.float).

Definition transformation (np_sum : list F64.float -> F64.float)
           (a : Action) (s : Session) : Run :=
  match a with
  | ExecuteDrop cols_to_drop => execute_drop cols_to_drop s
  | ApplyTransformation col_option method =>
      apply_transformation np_sum col_option method s
  | ApplyFilter filter_col val_range => apply_filter filter_col val_range s
  end.

(** The session after a sequence of runs of the page. *)
Fixpoint replay (np_sum : list F64.float -> F64.float)
         (actions : list Action) (s : Session) : Session :=
  match actions with
  | [] => s
  | a :: rest => replay np_sum rest (session (transformation np_sum a s))
  end.

(** The session holds no table, or a well-formed one. *)
Definition session_ok (s : Session) : Prop :=
  match df s with
  | None => True
  | Some d => well_formed d
  end.

(** Whether "Apply Filter" goes through on a column, and with which mask. *)
Definition filter_mask (d : DataFrame) (col : string)
           (r : F64.float * F64.float)
  : option (list bool) :=
  match getitem d col with
  | inl _ => None
  | inr c =>
      if is_numeric_dtype c
      then Some (map (between (fst r) (snd r)) (values c))
      else None
  end.

(** The slider's default value, [(min_val, max_val)]:
    [float(df[filter_col].min())] and [float(df[filter_col].max())]. *)
Definition default_range (c : Series) : option (F64.float * F64.float) :=
  match to_float (series_min c), to_float (series_max c) with
  | Some lo, Some hi => Some (lo, hi)
  | _, _ => None
  end.

(** *** The page when no button is pressed: up to the download *)

(** [min_val] and [max_val]: [float(df[filter_col].min())] and
    [float(df[filter_col].max())], NaN when no cell is present. *)
Definition min_val (c : Series) : F64.float :=
  match to_float (series_min c) with Some x => x | None => F64.nan end.

Definition max_val (c : Series) : F64.float :=
  match to_float (series_max c) with Some x => x | None => F64.nan end.


(** How the page ends when no button is pressed. *)
Inductive Rendered :=
| NoTable (shown : Message)
| Crashed (e : Exception)
| Offered (data : list Byte.byte) (name : string).

(** The f-string's rendering of the stored name. *)
Definition str_of (n : option string) : string :=
  match n with Some x => x | None => "None" end.

Section Exporting.
(** Whether [st.slider(label, min_val, max_val, (min_val, max_val))]
    accepts its bounds; Streamlit's, taken as given. *)
Variable slider_accepts : F64.float -> F64.float -> bool.
Variable quotes_cr : bool.
Variable fmt : Value -> string.

(** [convert_df]: [df.to_csv(index=False).encode('utf-8')].  A string of
    the model is its UTF-8 bytes already. *)
Definition convert_df (d : DataFrame) : list Byte.byte :=
  list_byte_of_string (to_csv quotes_cr fmt d).

(** The run of the Transformation page with no button pressed, from the
    filter expander on: [df[filter_col]], the slider when the column is
    numeric, then the download button with its data and its file name. *)
Definition download (filter_col : option string) (s : Session) : Rendered :=
  match df s with
  | None =>
      NoTable (warning "⚠️ No data loaded. Please go to the Ingestion module.")
  | Some d =>
      match filter_col with
      | None => Crashed KeyErrorNone
      | Some col =>
          match getitem d col with
          | inl e => Crashed e
          | inr c =>
              if is_numeric_dtype c
                 && negb (slider_accepts (min_val c) (max_val c))
              then Crashed StreamlitAPIException
              else Offered (convert_df d)
                           ("processed_" ++ str_of (file_name s))%string
          end
      end
  end.
End Exporting.

(** A table no larger than another: no more rows, no more columns, no
    new column name. *)
Definition within (d' d : DataFrame) : Prop :=
  (nrows d' <= nrows d)%nat
  /\ (total_columns d' <= total_columns d)%nat
  /\ incl (column_names d') (column_names d).

End App.

(** ** Tables used in the examples *)

Module Examples.
Import Pandas App.

Definition col_a : Series :=
  {| dtype := int64; values := [VInt 1; VInt 2; VInt 3] |}.

Definition col_b : Series :=
  {| dtype := float64;
     values := [VFloat (F64.of_Z 10); VNaN; VFloat (F64.of_Z 30)] |}.

Definition col_city : Series :=
  {| dtype := object_; values := [VStr "Oslo"; VNaN; VStr "Lima"] |}.

(** [a,b\n1,10\n2,\n3,30\n] as [pd.read_csv] loads it. *)
Definition table_ab : DataFrame :=
  {| index := [0; 1; 2]%Z; columns := [("a", col_a); ("b", col_b)] |}.

(** One numeric column next to a text column. *)
Definition table_a_city : DataFrame :=
  {| index := [0; 1; 2]%Z; columns := [("a", col_a); ("city", col_city)] |}.

Definition session_ab : Session :=
  {| df := Some table_ab; file_name := Some "data.csv" |}.

Definition session_a_city : Session :=
  {| df := Some table_a_city; file_name := Some "towns.csv" |}.

(** A stand-in for pandas' coefficient: its value on a non-constant column
    paired with itself. *)
Definition pearson_self (_ _ : list Value) : Value := VFloat F64.one.

(** A reader that rejects every file, with the parser's message. *)
Definition rejecting (e : string) (_ : File) : string + DataFrame := inl e.

(** A cell printer for the examples: the integers and floats they use,
    text and missing cells, as pandas prints them. *)
Definition fmt_plain (v : Value) : string :=
  match v with
  | VInt 1 => "1" | VInt 2 => "2" | VInt 3 => "3"
  | VFloat x => if F64.eqb x (F64.of_Z 10) then "10.0"
                else if F64.eqb x (F64.of_Z 30) then "30.0" else "?"
  | VStr t => t
  | VNaN => ""
  | _ => "?"
  end.




(** A numeric column with every cell missing. *)
Definition col_void : Series :=
  {| dtype := float64; values := [VNaN; VNaN; VNaN] |}.

Definition table_a_void : DataFrame :=
  {| index := [0; 1; 2]%Z; columns := [("a", col_a); ("v", col_void)] |}.

Definition session_a_void : Session :=
  {| df := Some table_a_void; file_name := Some "void.csv" |}.

(** Three columns, one of them text. *)
Definition table_abc : DataFrame :=
  {| index := [0; 1; 2]%Z;
     columns := [("a", col_a); ("b", col_b); ("city", col_city)] |}.

Definition session_abc : Session :=
  {| df := Some table_abc; file_name := Some "towns.csv" |}.

(** A boolean column. *)
Definition col_flag : Series :=
  {| dtype := bool_; values := [VBool true; VBool false; VBool true] |}.

Definition table_a_flag : DataFrame :=
  {| index := [0; 1; 2]%Z; columns := [("a", col_a); ("flag", col_flag)] |}.

Definition session_a_flag : Session :=
  {| df := Some table_a_flag; file_name := Some "flags.csv" |}.

(** Integers around 2^53, where float64 no longer holds every integer. *)
Definition col_n : Series :=
  {| dtype := int64;
     values := [VInt 0; VInt (2 ^ 53); VInt (2 ^ 53 + 1)] |}.

Definition table_n : DataFrame :=
  {| index := [0; 1; 2]%Z; columns := [("n", col_n)] |}.

Definition session_n : Session :=
  {| df := Some table_n; file_name := Some "big.csv" |}.





(** A sum for the examples: the cells added from left to right.  On the
    examples every order of addition gives the same float: at most one
    addition rounds. *)
Definition sum_in_order (cells : list F64.float) : F64.float :=
  fold_left F64.add cells (S754_zero true).

(** A slider that accepts every pair of bounds. *)
Definition any_slider (_ _ : F64.float) : bool := true.

(** A reader that accepts every file as [table_ab]. *)
Definition reading_ab (_ : File) : string + DataFrame := inr table_ab.

End Examples.


(** ** Lists: masks and the row view *)

Module ListFacts.
Import Lists.

Lemma select_nil_r {A : Type} (mask : list bool) : select mask (@nil A) = [].
Proof. destruct mask as [|[] mask]; reflexivity. Qed.

Lemma hd_select_true {A : Type} (d : A) mask l :
  hd d (select (true :: mask) l) = hd d l.
Proof. destruct l; reflexivity. Qed.

Lemma tl_select_true {A : Type} mask (l : list A) :
  tl (select (true :: mask) l) = select mask (tl l).
Proof. destruct l; simpl; [now rewrite select_nil_r | reflexivity]. Qed.

Lemma select_false {A : Type} mask (l : list A) :
  select (false :: mask) l = select mask (tl l).
Proof. destruct l; simpl; [now rewrite select_nil_r | reflexivity]. Qed.

(** Masking the columns and then reading rows is masking the rows. *)
Lemma transpose_select {A : Type} (d : A) mask : forall cols,
  transpose d (count_true mask) (map (select mask) cols)
  = select mask (transpose d (List.length mask) cols).
Proof.
  induction mask as [|b mask IH]; intros cols.
  - reflexivity.
  - destruct b; cbn [List.length transpose select].
    + change (count_true (true :: mask)) with (S (count_true mask)).
      cbn [transpose]. rewrite !map_map. f_equal.
      * apply map_ext; intros l; apply hd_select_true.
      * rewrite <- IH, map_map. f_equal.
        apply map_ext; intros l; apply tl_select_true.
    + change (count_true (false :: mask)) with (count_true mask).
      rewrite <- IH, map_map. f_equal.
      apply map_ext; intros l; apply select_false.
Qed.

Lemma length_select {A : Type} mask : forall l : list A,
  List.length l = List.length mask ->
  List.length (select mask l) = count_true mask.
Proof.
  induction mask as [|b mask IH]; intros [|x l] H; try discriminate.
  - reflexivity.
  - injection H as H. destruct b; simpl.
    + change (count_true (true :: mask)) with (S (count_true mask)).
      now rewrite IH.
    + now apply IH.
Qed.

Lemma nth_map_hd {A : Type} (d : A) k : forall cols c,
  nth_error cols k = Some c -> nth k (map (hd d) cols) d = hd d c.
Proof.
  induction k as [|k IH]; intros [|c0 cols] c H; try discriminate.
  - now injection H as ->.
  - simpl. now apply IH.
Qed.

Lemma nth_error_map_tl {A : Type} k : forall (cols : list (list A)) c,
  nth_error cols k = Some c -> nth_error (map (@tl A) cols) k = Some (tl c).
Proof.
  intros cols c H. now rewrite nth_error_map, H.
Qed.

(** A mask computed from column [k] keeps the rows whose cell [k] passes. *)
Lemma select_by_column {A : Type} (d : A) (p : A -> bool) k : forall c cols,
  nth_error cols k = Some c ->
  select (map p c) (transpose d (List.length c) cols)
  = filter (fun r => p (nth k r d)) (transpose d (List.length c) cols).
Proof.
  induction c as [|x c IH]; intros cols H.
  - reflexivity.
  - cbn [List.length transpose map select filter].
    rewrite (nth_map_hd d k cols _ H). cbn [hd].
    pose proof (nth_error_map_tl k cols _ H) as H'. cbn [tl] in H'.
    rewrite (IH _ H'). reflexivity.
Qed.

(** Selecting twice with the mask of a predicate is selecting once. *)
Lemma select_again {A B : Type} (p : A -> bool) : forall (c : list A) (l : list B),
  select (map p (select (map p c) c)) (select (map p c) l)
  = select (map p c) l.
Proof.
  induction c as [|x c IH]; intros [|y l]; try reflexivity.
  - now rewrite !select_nil_r.
  - cbn [map select]. destruct (p x) eqn:E.
    + cbn [map select]. rewrite E. f_equal. apply IH.
    + apply IH.
Qed.

Lemma filter_none_missing (names : list string) : forall l,
  incl l names -> filter (fun x => negb (mem x names)) l = [].
Proof.
  induction l as [|x l IH]; intros H; [reflexivity|].
  simpl. assert (Hx : mem x names = true).
  { unfold mem. apply existsb_exists. exists x. split.
    - apply H; now left.
    - apply String.eqb_refl. }
  rewrite Hx. simpl. apply IH. intros y Hy. apply H. now right.
Qed.

Lemma mem_In x l : mem x l = true <-> In x l.
Proof.
  unfold mem. rewrite existsb_exists. split.
  - intros [y [Hy E]]. apply String.eqb_eq in E. now subst.
  - intros H. exists x. split; [assumption | apply String.eqb_refl].
Qed.

End ListFacts.

(** ** The order of float64 *)

Module F64Facts.

Ltac compare_cases :=
  repeat match goal with
  | |- context [Z.compare ?a ?b] => destruct (Z.compare_spec a b); subst
  | |- context [Pos.compare_cont Eq ?a ?b] =>
      change (Pos.compare_cont Eq a b) with (Pos.compare a b);
      destruct (Pos.compare_spec a b); subst
  | H : context [Z.compare ?a ?b] |- _ => destruct (Z.compare_spec a b); subst
  | H : context [Pos.compare_cont Eq ?a ?b] |- _ =>
      change (Pos.compare_cont Eq a b) with (Pos.compare a b) in H;
      destruct (Pos.compare_spec a b); subst
  end.

Lemma leb_refl x : F64.is_nan x = false -> F64.leb x x = true.
Proof.
  destruct x as [[]|[]| |[] m e]; intros H; try discriminate; try reflexivity;
    unfold F64.leb, SFleb, SFcompare; rewrite Z.compare_refl;
    change (Pos.compare_cont Eq m m) with (Pos.compare m m);
    now rewrite Pos.compare_refl.
Qed.

Lemma leb_total x y :
  F64.is_nan x = false -> F64.is_nan y = false ->
  F64.leb x y = false -> F64.leb y x = true.
Proof.
  destruct x as [[]|[]| |[] m1 e1], y as [[]|[]| |[] m2 e2];
    intros Hx Hy; try discriminate; unfold F64.leb, SFleb, SFcompare;
    try reflexivity; try discriminate;
    compare_cases; cbn; try reflexivity; try discriminate; try lia.
Qed.

Lemma leb_trans x y z :
  F64.leb x y = true -> F64.leb y z = true -> F64.leb x z = true.
Proof.
  destruct x as [[]|[]| |[] m1 e1], y as [[]|[]| |[] m2 e2],
           z as [[]|[]| |[] m3 e3];
    unfold F64.leb, SFleb, SFcompare; intros H1 H2;
    try reflexivity; try discriminate;
    compare_cases; cbn in *; try reflexivity; try discriminate; try lia.
Qed.

(** A comparison holds of numbers only. *)
Lemma leb_numbers x y :
  F64.leb x y = true -> F64.is_nan x = false /\ F64.is_nan y = false.
Proof.
  destruct x as [[]|[]| |[] m1 e1], y as [[]|[]| |[] m2 e2];
    try discriminate; intros _; split; reflexivity.
Qed.

Lemma leb_nan_r x : F64.leb x F64.nan = false.
Proof. now destruct x as [[]|[]| |[] m e]. Qed.

Lemma leb_nan_l x : F64.leb F64.nan x = false.
Proof. reflexivity. Qed.

Section NonNeg.
Variables prec emax : Z.

Lemma shr_1_nonneg mrs : (0 <= shr_m mrs)%Z -> (0 <= shr_m (shr_1 mrs))%Z.
Proof.
  destruct mrs as [m r s]. cbn [shr_m]. intros H.
  destruct m as [|p|p]; [cbn; lia| |lia].
  destruct p; cbn; lia.
Qed.

Lemma iter_pos_nonneg : forall p mrs,
  (0 <= shr_m mrs)%Z -> (0 <= shr_m (iter_pos shr_1 p mrs))%Z.
Proof.
  induction p as [p IH|p IH|]; intros mrs H; cbn [iter_pos].
  - apply IH, IH. now apply shr_1_nonneg.
  - apply IH, IH. exact H.
  - now apply shr_1_nonneg.
Qed.

Lemma shr_nonneg mrs e n :
  (0 <= shr_m mrs)%Z -> (0 <= shr_m (fst (shr mrs e n)))%Z.
Proof.
  intros H. unfold shr. destruct n; cbn [fst]; try exact H.
  now apply iter_pos_nonneg.
Qed.

Lemma shr_fexp_nonneg m e l :
  (0 <= m)%Z -> (0 <= shr_m (fst (shr_fexp prec emax m e l)))%Z.
Proof.
  intros H. unfold shr_fexp. apply shr_nonneg.
  unfold shr_record_of_loc. destruct l as [|[]]; cbn [shr_m]; exact H.
Qed.

Lemma round_nearest_even_nonneg m l :
  (0 <= m)%Z -> (0 <= round_nearest_even m l)%Z.
Proof.
  intros H. unfold round_nearest_even. destruct l as [|[]]; try lia.
  destruct (Z.even m); lia.
Qed.

Lemma binary_round_aux_number sx m e l :
  (0 <= m)%Z -> binary_round_aux prec emax sx m e l <> S754_nan.
Proof.
  intros H. unfold binary_round_aux.
  pose proof (shr_fexp_nonneg m e l H) as H1.
  destruct (shr_fexp prec emax m e l) as [mrs' e'] eqn:E1. cbn [fst] in H1.
  pose proof (shr_fexp_nonneg
                (round_nearest_even (shr_m mrs') (loc_of_shr_record mrs'))
                e' loc_Exact
                (round_nearest_even_nonneg _ _ H1)) as H2.
  destruct (shr_fexp prec emax _ e' loc_Exact) as [mrs'' e''] eqn:E2.
  cbn [fst] in H2.
  destruct (shr_m mrs'') as [|p|p]; [discriminate| |lia].
  destruct (Z.leb e'' (emax - prec)); discriminate.
Qed.

Lemma binary_normalize_number m e sz :
  binary_normalize prec emax m e sz <> S754_nan.
Proof.
  unfold binary_normalize. destruct m as [|p|p]; [discriminate| |];
    unfold binary_round;
    destruct (shl_align p e _) as [mz ez];
    apply binary_round_aux_number; lia.
Qed.
End NonNeg.

(** An integer converts to a number. *)
Lemma of_Z_number z : F64.is_nan (F64.of_Z z) = false.
Proof.
  pose proof (binary_normalize_number F64.prec F64.emax z 0 false) as H.
  unfold F64.of_Z. now destruct (binary_normalize _ _ z 0 false).
Qed.

End F64Facts.

(** ** The conversion of an integer to float64 is monotone *)

Module Rounding.
Local Open Scope Z_scope.

Lemma shr_1_code r1 r2 :
  0 <= shr_m r1 -> 0 <= shr_m r2 -> F64.shr_code r1 <= F64.shr_code r2 ->
  F64.shr_code (shr_1 r1) <= F64.shr_code (shr_1 r2).
Proof.
  destruct r1 as [m1 a1 b1], r2 as [m2 a2 b2]. unfold F64.shr_code. cbn [shr_m shr_r shr_s].
  intros H1 H2.
  destruct m1 as [|[p1|p1|]|p1], m2 as [|[p2|p2|]|p2]; try lia;
    destruct a1, b1, a2, b2; cbn; lia.
Qed.

Lemma iter_code : forall p r1 r2,
  0 <= shr_m r1 -> 0 <= shr_m r2 -> F64.shr_code r1 <= F64.shr_code r2 ->
  F64.shr_code (iter_pos shr_1 p r1) <= F64.shr_code (iter_pos shr_1 p r2).
Proof.
  induction p as [p IH|p IH|]; intros r1 r2 H1 H2 H; cbn [iter_pos].
  - apply IH; [now apply F64Facts.iter_pos_nonneg, F64Facts.shr_1_nonneg
              |now apply F64Facts.iter_pos_nonneg, F64Facts.shr_1_nonneg|].
    apply IH; [now apply F64Facts.shr_1_nonneg | now apply F64Facts.shr_1_nonneg|].
    now apply shr_1_code.
  - apply IH; [now apply F64Facts.iter_pos_nonneg | now apply F64Facts.iter_pos_nonneg|].
    now apply IH.
  - now apply shr_1_code.
Qed.

Lemma shr_1_m r : 0 <= shr_m r -> shr_m (shr_1 r) = shr_m r / 2.
Proof.
  destruct r as [m a b]. cbn [shr_m]. intros H.
  destruct m as [|[p|p|]|p]; try lia; cbn [shr_1 shr_m].
  - reflexivity.
  - apply Z.div_unique with 1; lia.
  - apply Z.div_unique with 0; lia.
  - reflexivity.
Qed.

Lemma iter_m : forall p r,
  0 <= shr_m r -> shr_m (iter_pos shr_1 p r) = shr_m r / 2 ^ Zpos p.
Proof.
  induction p as [p IH|p IH|]; intros r H; cbn [iter_pos].
  - rewrite IH by now apply F64Facts.iter_pos_nonneg, F64Facts.shr_1_nonneg.
    rewrite IH by now apply F64Facts.shr_1_nonneg.
    rewrite shr_1_m by exact H.
    rewrite !Z.div_div by lia.
    f_equal.
    replace (Zpos p~1) with (1 + Zpos p + Zpos p) by lia.
    rewrite !Z.pow_add_r by lia. change (2 ^ 1) with 2. lia.
  - rewrite IH by now apply F64Facts.iter_pos_nonneg.
    rewrite IH by exact H.
    rewrite !Z.div_div by lia.
    f_equal.
    replace (Zpos p~0) with (Zpos p + Zpos p) by lia.
    rewrite !Z.pow_add_r by lia. lia.
  - rewrite shr_1_m by exact H. reflexivity.
Qed.

Lemma rnd_bounds r :
  shr_m r <= round_nearest_even (shr_m r) (loc_of_shr_record r) <= shr_m r + 1.
Proof.
  destruct r as [m [] []]; unfold round_nearest_even, loc_of_shr_record;
    cbn [shr_m]; try destruct (Z.even m); lia.
Qed.

Lemma rnd_code r1 r2 :
  F64.shr_code r1 <= F64.shr_code r2 ->
  round_nearest_even (shr_m r1) (loc_of_shr_record r1)
  <= round_nearest_even (shr_m r2) (loc_of_shr_record r2).
Proof.
  destruct r1 as [m1 a1 b1], r2 as [m2 a2 b2]. unfold F64.shr_code.
  cbn [shr_m shr_r shr_s]. intros H.
  unfold round_nearest_even, loc_of_shr_record.
  destruct (Z.eq_dec m1 m2) as [->|N].
  - destruct a1, b1, a2, b2; try lia; destruct (Z.even m2); lia.
  - destruct a1, b1, a2, b2; try lia;
      try destruct (Z.even m1); try destruct (Z.even m2); lia.
Qed.

Lemma digits2_bounds p :
  2 ^ (Zpos (digits2_pos p) - 1) <= Zpos p < 2 ^ Zpos (digits2_pos p).
Proof.
  induction p as [p IH|p IH|]; cbn [digits2_pos].
  - rewrite Pos2Z.inj_succ.
    replace (Z.succ (Zpos (digits2_pos p)) - 1)
      with (Z.succ (Zpos (digits2_pos p) - 1)) by lia.
    rewrite !Z.pow_succ_r by lia. lia.
  - rewrite Pos2Z.inj_succ.
    replace (Z.succ (Zpos (digits2_pos p)) - 1)
      with (Z.succ (Zpos (digits2_pos p) - 1)) by lia.
    rewrite !Z.pow_succ_r by lia. lia.
  - cbn. lia.
Qed.

Lemma digits2_unique q a :
  2 ^ (a - 1) <= Zpos q < 2 ^ a -> Zpos (digits2_pos q) = a.
Proof.
  intros [H1 H2]. destruct (digits2_bounds q) as [B1 B2].
  assert (A : 0 < a).
  { destruct (Z_lt_le_dec 0 a) as [L|L]; [exact L|].
    destruct (Z.eq_dec a 0) as [->|N]; [cbn in H2; lia|].
    rewrite (Z.pow_neg_r 2 a) in H2 by lia. lia. }
  assert (L1 : Zpos (digits2_pos q) - 1 < a).
  { apply (Z.pow_lt_mono_r_iff 2); lia. }
  assert (L2 : a - 1 < Zpos (digits2_pos q)).
  { apply (Z.pow_lt_mono_r_iff 2); lia. }
  lia.
Qed.

Lemma digits2_mono p q :
  Zpos p <= Zpos q -> Zpos (digits2_pos p) <= Zpos (digits2_pos q).
Proof.
  intros H. destruct (digits2_bounds p) as [B1 _], (digits2_bounds q) as [_ B2].
  assert (L : Zpos (digits2_pos p) - 1 < Zpos (digits2_pos q)).
  { apply (Z.pow_lt_mono_r_iff 2); lia. }
  lia.
Qed.

Lemma iter_xO p n : Zpos (Pos.iter xO p n) = Zpos p * 2 ^ Zpos n.
Proof.
  induction n as [|n IH] using Pos.peano_ind.
  - cbn [Pos.iter]. change (2 ^ 1) with 2. lia.
  - rewrite Pos.iter_succ, Pos2Z.inj_succ, Z.pow_succ_r by lia.
    rewrite Pos2Z.inj_xO, IH. lia.
Qed.

(** A mantissa of 53 digits within the exponent range is kept as it is. *)
Lemma round_aux_exact sx m e :
  Zpos (digits2_pos m) = 53 -> -1074 <= e <= 971 ->
  binary_round_aux F64.prec F64.emax sx (Zpos m) e loc_Exact = S754_finite sx m e.
Proof.
  intros D He.
  assert (F : fexp F64.prec F64.emax (53 + e) - e = 0).
  { unfold fexp, emin, F64.prec, F64.emax. lia. }
  unfold binary_round_aux, shr_fexp. cbn [Zdigits2]. rewrite D, F.
  cbn [shr shr_record_of_loc shr_m loc_of_shr_record round_nearest_even
       Zdigits2].
  rewrite D, F. cbn [shr shr_record_of_loc shr_m].
  unfold F64.prec, F64.emax. destruct (Z.leb_spec e (1024 - 53)); [reflexivity | lia].
Qed.

Lemma binary_round_small p :
  Zpos (digits2_pos p) <= 53 ->
  exists m,
    Zpos m = Zpos p * 2 ^ (53 - Zpos (digits2_pos p))
    /\ forall sx, binary_round F64.prec F64.emax sx p 0
                  = S754_finite sx m (Zpos (digits2_pos p) - 53).
Proof.
  intros D. destruct (digits2_bounds p) as [B1 B2].
  assert (F : fexp F64.prec F64.emax (Zpos (digits2_pos p) + 0)
              = Zpos (digits2_pos p) - 53).
  { unfold fexp, emin, F64.prec, F64.emax. lia. }
  unfold binary_round. rewrite F. unfold shl_align. rewrite Z.sub_0_r.
  destruct (Zpos (digits2_pos p) - 53) as [|n|n] eqn:E; [|lia|].
  - exists p. split.
    + replace (53 - Zpos (digits2_pos p)) with 0 by lia. cbn. lia.
    + intros sx. apply round_aux_exact; lia.
  - exists (Pos.iter xO p n).
    assert (V : Zpos (Pos.iter xO p n)
                = Zpos p * 2 ^ (53 - Zpos (digits2_pos p))).
    { rewrite iter_xO. f_equal. f_equal. lia. }
    split; [exact V|].
    intros sx. apply round_aux_exact; [|lia].
    apply digits2_unique. rewrite V.
    replace (53 - 1) with (Zpos (digits2_pos p) - 1 + (53 - Zpos (digits2_pos p)))
      by lia.
    replace (2 ^ 53)
      with (2 ^ Zpos (digits2_pos p) * 2 ^ (53 - Zpos (digits2_pos p))).
    2:{ rewrite <- Z.pow_add_r by lia. f_equal. lia. }
    rewrite Z.pow_add_r by lia.
    assert (0 < 2 ^ (53 - Zpos (digits2_pos p))) by (apply Z.pow_pos_nonneg; lia).
    nia.
Qed.

(** The result of rounding, before the check for overflow. *)
Lemma binary_round_large p k :
  Zpos (digits2_pos p) = 53 + Zpos k ->
  exists m e,
    (forall sx, binary_round F64.prec F64.emax sx p 0
                = if e <=? 971 then S754_finite sx m e else S754_infinity sx)
    /\ 2 ^ 52 <= Zpos m < 2 ^ 53
    /\ ((e = Zpos k
         /\ Zpos m
            = round_nearest_even
                (shr_m (iter_pos shr_1 k
                          {| shr_m := Zpos p; shr_r := false; shr_s := false |}))
                (loc_of_shr_record
                   (iter_pos shr_1 k
                      {| shr_m := Zpos p; shr_r := false; shr_s := false |})))
        \/ (e = Zpos k + 1 /\ Zpos m = 2 ^ 52
            /\ round_nearest_even
                 (shr_m (iter_pos shr_1 k
                           {| shr_m := Zpos p; shr_r := false; shr_s := false |}))
                 (loc_of_shr_record
                    (iter_pos shr_1 k
                       {| shr_m := Zpos p; shr_r := false; shr_s := false |}))
               = 2 ^ 53)).
Proof.
  intros D. destruct (digits2_bounds p) as [B1 B2]. rewrite D in B1, B2.
  set (R := iter_pos shr_1 k
              {| shr_m := Zpos p; shr_r := false; shr_s := false |}).
  assert (M : shr_m R = Zpos p / 2 ^ Zpos k).
  { unfold R. rewrite iter_m by (cbn; lia). reflexivity. }
  assert (P : 0 < 2 ^ Zpos k) by (apply Z.pow_pos_nonneg; lia).
  assert (Q : 2 ^ 52 <= shr_m R < 2 ^ 53).
  { rewrite M. split.
    - apply Z.div_le_lower_bound; [exact P|].
      rewrite <- Z.pow_add_r by lia.
      replace (Zpos k + 52) with (53 + Zpos k - 1) by lia. exact B1.
    - apply Z.div_lt_upper_bound; [exact P|].
      rewrite <- Z.pow_add_r by lia.
      replace (Zpos k + 53) with (53 + Zpos k) by lia. exact B2. }
  pose proof (rnd_bounds R) as N.
  set (m' := round_nearest_even (shr_m R) (loc_of_shr_record R)) in *.
  assert (F : fexp F64.prec F64.emax (Zpos (digits2_pos p) + 0) = Zpos k).
  { unfold fexp, emin, F64.prec, F64.emax. lia. }
  assert (E : forall sx, binary_round F64.prec F64.emax sx p 0
              = let '(mrs, e) := shr_fexp F64.prec F64.emax m' (Zpos k) loc_Exact in
                match shr_m mrs with
                | 0 => S754_zero sx
                | Zpos m => if e <=? F64.emax - F64.prec then S754_finite sx m e
                            else S754_infinity sx
                | Zneg _ => S754_nan
                end).
  { intros sx.
    unfold binary_round. rewrite F. unfold shl_align. rewrite Z.sub_0_r.
    unfold binary_round_aux.
    unfold shr_fexp at 1. cbn [Zdigits2]. rewrite F, Z.sub_0_r.
    cbn [shr shr_record_of_loc]. fold R. fold m'.
    rewrite Z.add_0_l. reflexivity. }
  destruct m' as [|q|q] eqn:Eq; [lia| |lia].
  destruct (Z_lt_le_dec (Zpos q) (2 ^ 53)) as [L|L].
  - assert (Dq : Zpos (digits2_pos q) = 53).
    { apply digits2_unique. change (53 - 1) with 52. lia. }
    exists q, (Zpos k). split; [|split; [lia | left; split; reflexivity]].
    assert (F' : fexp F64.prec F64.emax (53 + Zpos k) - Zpos k = 0).
    { unfold fexp, emin, F64.prec, F64.emax. lia. }
    intros sx. rewrite E. unfold shr_fexp. cbn [Zdigits2]. rewrite Dq, F'.
    cbn [shr shr_record_of_loc shr_m]. reflexivity.
  - assert (Vq : Zpos q = 2 ^ 53) by lia.
    assert (Dq : Zpos (digits2_pos q) = 54).
    { apply digits2_unique. rewrite Vq. change (54 - 1) with 53.
      split; [lia|]. apply Z.pow_lt_mono_r; lia. }
    exists (2 ^ 52)%positive, (Zpos k + 1).
    split; [|split; [split; [reflexivity | reflexivity]
                    | right; split; [reflexivity | split; [reflexivity | exact Vq]]]].
    assert (F' : fexp F64.prec F64.emax (54 + Zpos k) - Zpos k = 1).
    { unfold fexp, emin, F64.prec, F64.emax. lia. }
    intros sx. rewrite E. unfold shr_fexp. cbn [Zdigits2]. rewrite Dq, F'.
    assert (q = (2 ^ 53)%positive) as -> by (apply Pos2Z.inj; exact Vq).
    reflexivity.
Qed.

Lemma leb_rounded m1 e1 m2 e2 :
  e1 < e2 \/ (e1 = e2 /\ Zpos m1 <= Zpos m2) ->
  SFleb (if e1 <=? 971 then S754_finite false m1 e1 else S754_infinity false)
        (if e2 <=? 971 then S754_finite false m2 e2 else S754_infinity false)
  = true
  /\ SFleb (if e2 <=? 971 then S754_finite true m2 e2 else S754_infinity true)
           (if e1 <=? 971 then S754_finite true m1 e1 else S754_infinity true)
     = true.
Proof.
  intros H.
  destruct (Z.leb_spec e1 971), (Z.leb_spec e2 971); try lia;
    unfold SFleb, SFcompare; try (split; reflexivity);
    destruct (Z.compare_spec e1 e2), (Z.compare_spec e2 e1); try lia;
    try (split; reflexivity);
    change (Pos.compare_cont Eq m1 m2) with (Pos.compare m1 m2);
    change (Pos.compare_cont Eq m2 m1) with (Pos.compare m2 m1);
    destruct (Pos.compare_spec m1 m2), (Pos.compare_spec m2 m1);
    try lia; split; reflexivity.
Qed.

(** Rounding a positive integer to precision 53 is monotone, with either
    sign. *)
Lemma binary_round_mono p1 p2 :
  Zpos p1 <= Zpos p2 ->
  SFleb (binary_round F64.prec F64.emax false p1 0) (binary_round F64.prec F64.emax false p2 0)
  = true
  /\ SFleb (binary_round F64.prec F64.emax true p2 0) (binary_round F64.prec F64.emax true p1 0)
     = true.
Proof.
  intros H. pose proof (digits2_mono p1 p2 H) as D.
  assert (S : forall p, Zpos (digits2_pos p) <= 53 ->
              exists m e,
                (forall sx, binary_round F64.prec F64.emax sx p 0
                            = if e <=? 971 then S754_finite sx m e
                              else S754_infinity sx)
                /\ e = Zpos (digits2_pos p) - 53
                /\ Zpos m = Zpos p * 2 ^ (53 - Zpos (digits2_pos p))).
  { intros p Hp. destruct (binary_round_small p Hp) as [m [V E]].
    exists m, (Zpos (digits2_pos p) - 53). split; [|split; [reflexivity|exact V]].
    intros sx. rewrite E.
    destruct (Z.leb_spec (Zpos (digits2_pos p) - 53) 971); [reflexivity|lia]. }
  assert (L : forall p, 53 < Zpos (digits2_pos p) ->
              Zpos (digits2_pos p)
              = 53 + Zpos (Z.to_pos (Zpos (digits2_pos p) - 53))).
  { intros p Hp. rewrite Z2Pos.id; lia. }
  destruct (Z_le_gt_dec (Zpos (digits2_pos p1)) 53) as [S1|L1].
  - destruct (S p1 S1) as [m1 [e1 [E1 [He1 V1]]]].
    destruct (Z_le_gt_dec (Zpos (digits2_pos p2)) 53) as [S2|L2].
    + destruct (S p2 S2) as [m2 [e2 [E2 [He2 V2]]]].
      rewrite !E1, !E2. apply leb_rounded.
      destruct (Z.eq_dec (Zpos (digits2_pos p1)) (Zpos (digits2_pos p2)))
        as [Q|Q]; [right | left; lia].
      split; [lia|]. rewrite V1, V2, Q.
      apply Z.mul_le_mono_nonneg_r; [apply Z.pow_nonneg; lia | exact H].
    + destruct (binary_round_large p2 _ (L p2 ltac:(lia)))
        as [m2 [e2 [E2 [B2 K2]]]].
      rewrite !E1, !E2. apply leb_rounded. left. lia.
  - assert (L2 : 53 < Zpos (digits2_pos p2)) by lia.
    destruct (binary_round_large p1 _ (L p1 ltac:(lia)))
      as [m1 [e1 [E1 [B1 K1]]]].
    destruct (binary_round_large p2 _ (L p2 L2)) as [m2 [e2 [E2 [B2 K2]]]].
    rewrite !E1, !E2. apply leb_rounded.
    destruct (Z.eq_dec (Zpos (digits2_pos p1)) (Zpos (digits2_pos p2)))
      as [Q|Q].
    + rewrite <- Q in K2.
      set (k := Z.to_pos (Zpos (digits2_pos p1) - 53)) in *.
      assert (C : round_nearest_even
                    (shr_m (iter_pos shr_1 k
                              {| shr_m := Zpos p1; shr_r := false; shr_s := false |}))
                    (loc_of_shr_record
                       (iter_pos shr_1 k
                          {| shr_m := Zpos p1; shr_r := false; shr_s := false |}))
                  <= round_nearest_even
                       (shr_m (iter_pos shr_1 k
                                 {| shr_m := Zpos p2; shr_r := false; shr_s := false |}))
                       (loc_of_shr_record
                          (iter_pos shr_1 k
                             {| shr_m := Zpos p2; shr_r := false; shr_s := false |}))).
      { apply rnd_code. apply iter_code; cbn [shr_m]; try lia.
        unfold F64.shr_code. cbn [shr_m shr_r shr_s]. lia. }
      destruct K1 as [[-> M1] | [-> [M1 R1]]], K2 as [[-> M2] | [-> [M2 R2]]];
        lia.
    + assert (K : Zpos (Z.to_pos (Zpos (digits2_pos p1) - 53))
                  < Zpos (Z.to_pos (Zpos (digits2_pos p2) - 53))).
      { rewrite !Z2Pos.id by lia. lia. }
      destruct K1 as [[-> M1] | [-> [M1 R1]]], K2 as [[-> M2] | [-> [M2 R2]]];
        lia.
Qed.

(** The conversion of an integer to float64 is monotone. *)
Lemma of_Z_mono z1 z2 : z1 <= z2 -> F64.leb (F64.of_Z z1) (F64.of_Z z2) = true.
Proof.
  intros H. unfold F64.leb, F64.of_Z, binary_normalize.
  assert (P : forall p, exists m e,
              forall sx, binary_round F64.prec F64.emax sx p 0
                         = if e <=? 971 then S754_finite sx m e
                           else S754_infinity sx).
  { intros p. destruct (Z_le_gt_dec (Zpos (digits2_pos p)) 53) as [S|L].
    - destruct (binary_round_small p S) as [m [_ E]].
      exists m, (Zpos (digits2_pos p) - 53). intros sx. rewrite E.
      destruct (Z.leb_spec (Zpos (digits2_pos p) - 53) 971); [reflexivity|lia].
    - assert (D : Zpos (digits2_pos p)
                  = 53 + Zpos (Z.to_pos (Zpos (digits2_pos p) - 53))).
      { rewrite Z2Pos.id; lia. }
      destruct (binary_round_large p _ D) as [m [e [E _]]].
      now exists m, e. }
  destruct z1 as [|p1|p1], z2 as [|p2|p2]; try lia.
  - reflexivity.
  - destruct (P p2) as [m [e E]]. rewrite E. now destruct (e <=? 971).
  - now apply binary_round_mono.
  - destruct (P p1) as [m [e E]]. rewrite E. now destruct (e <=? 971).
  - destruct (P p1) as [m1 [e1 E1]], (P p2) as [m2 [e2 E2]].
    rewrite E1, E2. now destruct (e1 <=? 971), (e2 <=? 971).
  - apply binary_round_mono. lia.
Qed.

End Rounding.

(** ** Dropping columns *)

Module DropColumns.
Import Lists Pandas App Examples ListFacts.

Lemma filter_missing_nil (names : list string) : forall l,
  filter (fun x => negb (mem x names)) l = [] -> incl l names.
Proof.
  induction l as [|x l IH]; intros H y Hy; [contradiction|].
  simpl in H. destruct (mem x names) eqn:E; simpl in H; [|discriminate].
  destruct Hy as [<- | Hy].
  - now apply mem_In.
  - now apply IH.
Qed.

Lemma drop_offered d labels :
  incl labels (column_names d) ->
  drop labels d
  = inr {| index := index d;
           columns := filter (fun c => negb (mem (fst c) labels)) (columns d) |}.
Proof.
  intros H. unfold drop. now rewrite filter_none_missing.
Qed.

Lemma drop_unknown d labels :
  ~ incl labels (column_names d) ->
  exists missing, missing <> [] /\ drop labels d = inl (KeyError missing).
Proof.
  intros H. unfold drop.
  destruct (filter (fun l => negb (mem l (column_names d))) labels)
    as [|m ms] eqn:E.
  - exfalso. apply H. now apply filter_missing_nil.
  - exists (m :: ms). split; [discriminate | reflexivity].
Qed.

Lemma dropped_name_gone n : forall cs : list (string * Series),
  mem n (map fst (filter (fun c => negb (mem (fst c) [n])) cs)) = false.
Proof.
  induction cs as [|c cs IH]; [reflexivity|].
  simpl. rewrite orb_false_r.
  destruct (String.eqb (fst c) n) eqn:E; simpl; [assumption|].
  rewrite String.eqb_sym, E. exact IH.
Qed.

Lemma drop_single n d :
  drop [n] d
  = if mem n (column_names d)
    then inr {| index := index d;
                columns := filter (fun c => negb (mem (fst c) [n]))
                                  (columns d) |}
    else inl (KeyError [n]).
Proof.
  unfold drop. cbn [filter]. now destruct (mem n (column_names d)).
Qed.

(** C2, as the code has it.  With names taken from the table's columns,
    which is all the multiselect offers, "Execute Drop" succeeds, removes
    exactly the named columns, keeps the others in order with their cells,
    and leaves the row labels and the row count as they were.  A name that
    is not a column is not ignored: [df.drop] raises [KeyError] and the
    session keeps its table. *)
Theorem execute_drop_removes_offered s d cols_to_drop :
  df s = Some d ->
  (offered d cols_to_drop ->
   exists d',
     execute_drop cols_to_drop s
     = {| session := with_df s d';
          messages := [success "Columns removed successfully."];
          control := Rerun |}
     /\ columns d' = filter (fun c => negb (mem (fst c) cols_to_drop)) (columns d)
     /\ (forall c, In c (columns d')
                   <-> In c (columns d) /\ ~ In (fst c) cols_to_drop)
     /\ index d' = index d
     /\ nrows d' = nrows d)
  /\ (~ offered d cols_to_drop ->
      exists missing,
        missing <> []
        /\ execute_drop cols_to_drop s = raised s (KeyError missing)).
Proof.
  intros Hd. split; intros H.
  - eexists. unfold execute_drop. rewrite Hd, (drop_offered d _ H).
    split; [reflexivity|]. cbn [columns index nrows].
    split; [reflexivity|]. split; [|split; reflexivity].
    intros c. rewrite filter_In, negb_true_iff.
    rewrite <- (mem_In (fst c) cols_to_drop).
    destruct (mem (fst c) cols_to_drop); intuition congruence.
  - destruct (drop_unknown d _ H) as [missing [Hne E]].
    exists missing. split; [assumption|].
    unfold execute_drop. now rewrite Hd, E.
Qed.

Lemma execute_drop_removes_offered_witness :
  exists d',
    execute_drop ["b"] session_ab
    = {| session := with_df session_ab d';
         messages := [success "Columns removed successfully."];
         control := Rerun |}
    /\ columns d' = [("a", col_a)].
Proof.
  assert (Hoff : offered table_ab ["b"]).
  { intros x [<- | []]. right; left; reflexivity. }
  destruct (proj1 (execute_drop_removes_offered session_ab table_ab ["b"]
                     eq_refl) Hoff) as [d' [E [C _]]].
  exists d'. split; [exact E | exact C].
Defined.

(** C2 as stated fails: a name that is not a column makes "Execute Drop"
    raise, it is not skipped. *)
Lemma execute_drop_unknown_name_raises :
  execute_drop ["z"] session_ab = raised session_ab (KeyError ["z"])
  /\ control (execute_drop ["z"] session_ab) <> Rerun.
Proof. split; [reflexivity | discriminate]. Qed.

(** C7, as the code has it.  After "Execute Drop" of [n], a second
    "Execute Drop" of [n] leaves the session as the first one left it.
    When the first one removed the column the second does not succeed:
    [n] is no longer a column and [df.drop] raises [KeyError]. *)
Theorem execute_drop_twice n s :
  let once := execute_drop [n] s in
  let twice := execute_drop [n] (session once) in
  session twice = session once
  /\ control twice = match control once with
                     | Rerun => Raised (KeyError [n])
                     | c => c
                     end.
Proof.
  cbv zeta. destruct (df s) as [d|] eqn:Hd.
  - destruct (mem n (column_names d)) eqn:M.
    + set (d1 := {| index := index d;
                    columns := filter (fun c => negb (mem (fst c) [n]))
                                      (columns d) |}).
      assert (E : execute_drop [n] s
                  = {| session := with_df s d1;
                       messages := [success "Columns removed successfully."];
                       control := Rerun |}).
      { unfold execute_drop. now rewrite Hd, drop_single, M. }
      assert (E1 : execute_drop [n] (with_df s d1)
                   = raised (with_df s d1) (KeyError [n])).
      { unfold execute_drop. cbn [df with_df]. rewrite drop_single.
        unfold column_names, d1. cbn [columns].
        now rewrite dropped_name_gone. }
      rewrite E. cbn [session control]. rewrite E1. split; reflexivity.
    + assert (E : execute_drop [n] s = raised s (KeyError [n])).
      { unfold execute_drop. now rewrite Hd, drop_single, M. }
      rewrite E. cbn [raised session control]. rewrite E.
      split; reflexivity.
  - assert (E : execute_drop [n] s = no_data s).
    { unfold execute_drop. now rewrite Hd. }
    rewrite E. cbn [no_data session control]. rewrite E.
    split; reflexivity.
Qed.

(** C7 as stated fails: the second drop of the same name does not
    succeed. *)
Lemma execute_drop_second_raises :
  let once := execute_drop ["b"] session_ab in
  control once = Rerun
  /\ execute_drop ["b"] (session once)
     = raised (session once) (KeyError ["b"]).
Proof. split; reflexivity. Qed.

End DropColumns.

(** ** Imputing a column *)

Module Impute.
Import Lists Pandas App Examples ListFacts.

Lemma getitem_found d col c :
  getitem d col = inr c ->
  find (fun x => String.eqb (fst x) col) (columns d) = Some (col, c).
Proof.
  unfold getitem. intros H.
  destruct (find _ (columns d)) as [[n c0]|] eqn:F; [|discriminate].
  injection H as <-. f_equal.
  apply find_some in F. destruct F as [_ F]. cbn [fst] in F.
  apply String.eqb_eq in F. now subst.
Qed.

Lemma set_column_names col s : forall cs c,
  find (fun x => String.eqb (fst x) col) cs = Some c ->
  map fst (set_column col s cs) = map fst cs.
Proof.
  induction cs as [|c0 cs IH]; intros c F; [discriminate|].
  cbn [find] in F. cbn [set_column].
  destruct (String.eqb (fst c0) col) eqn:E.
  - apply String.eqb_eq in E. cbn [map fst]. now rewrite E.
  - cbn [map]. f_equal. eapply IH; eassumption.
Qed.

Lemma set_column_others col s : forall cs c0 k x,
  find (fun x => String.eqb (fst x) col) cs = Some c0 ->
  nth_error cs k = Some x -> fst x <> col ->
  nth_error (set_column col s cs) k = Some x.
Proof.
  induction cs as [|c1 cs IH]; intros c0 k x F N Hx; [discriminate|].
  cbn [find] in F. cbn [set_column].
  destruct (String.eqb (fst c1) col) eqn:E.
  - destruct k as [|k]; cbn [nth_error] in *; [|assumption].
    injection N as <-. apply String.eqb_eq in E. contradiction.
  - destruct k as [|k]; cbn [nth_error] in *; [assumption|].
    eapply IH; eassumption.
Qed.

Lemma set_column_found col s : forall cs c0,
  find (fun x => String.eqb (fst x) col) cs = Some c0 ->
  find (fun x => String.eqb (fst x) col) (set_column col s cs) = Some (col, s).
Proof.
  induction cs as [|c1 cs IH]; intros c0 F; [discriminate|].
  cbn [find] in F. cbn [set_column].
  destruct (String.eqb (fst c1) col) eqn:E; cbn [find fst].
  - now rewrite String.eqb_refl.
  - rewrite E. eapply IH; eassumption.
Qed.


Lemma series_eta c : {| dtype := dtype c; values := values c |} = c.
Proof. now destruct c. Qed.

Lemma frame_eta d : {| index := index d; columns := columns d |} = d.
Proof. now destruct d. Qed.

Lemma session_eta s d : df s = Some d -> with_df s d = s.
Proof. destruct s as [t n]. cbn. now intros ->. Qed.

Lemma no_missing_cells c :
  isnull_sum c = 0%nat <-> forall v, In v (values c) -> isna v = false.
Proof.
  unfold isnull_sum. split.
  - intros H v Hv. destruct (isna v) eqn:E; [|reflexivity].
    assert (Hin : In v (filter isna (values c))) by (apply filter_In; tauto).
    apply length_zero_iff_nil in H. rewrite H in Hin. contradiction.
  - intros H. induction (values c) as [|v l IH]; [reflexivity|].
    cbn [filter]. rewrite (H v) by now left.
    apply IH. intros x Hx. apply H. now right.
Qed.

Lemma fillna_idem fill c : fillna fill (fillna fill c) = fillna fill c.
Proof.
  unfold fillna. cbn [dtype values]. f_equal. rewrite map_map.
  apply map_ext. intros v. destruct (isna v) eqn:E; [|now rewrite E].
  now destruct (isna fill).
Qed.

Lemma fillna_nan c : fillna VNaN c = c.
Proof.
  unfold fillna. rewrite <- (series_eta c) at 3. f_equal.
  rewrite <- (map_id (values c)) at 2. apply map_ext.
  intros v. now destruct v.
Qed.

Lemma fillna_complete fill c : isnull_sum c = 0%nat -> fillna fill c = c.
Proof.
  intros H. rewrite no_missing_cells in H.
  unfold fillna. rewrite <- (series_eta c) at 3. f_equal.
  rewrite <- (map_id (values c)) at 2. apply map_ext_in.
  intros v Hv. now rewrite (H v Hv).
Qed.

Lemma isnull_fillna fill c : isna fill = false -> isnull_sum (fillna fill c) = 0%nat.
Proof.
  intros Hf. apply no_missing_cells. cbn [fillna values].
  intros v Hv. apply in_map_iff in Hv. destruct Hv as [x [<- _]].
  destruct (isna x) eqn:E; assumption.
Qed.

Lemma set_column_same col c : forall cs,
  find (fun x => String.eqb (fst x) col) cs = Some (col, c) ->
  set_column col c cs = cs.
Proof.
  induction cs as [|c0 cs IH]; intros F; [discriminate|].
  cbn [find set_column] in *. destruct (String.eqb (fst c0) col).
  - now injection F as ->.
  - f_equal. now apply IH.
Qed.

Lemma setitem_same d col c : getitem d col = inr c -> setitem d col c = d.
Proof.
  intros H. apply Impute.getitem_found in H.
  unfold setitem. rewrite (set_column_same _ _ _ H). apply frame_eta.
Qed.

Lemma set_column_twice col c1 c2 : forall cs,
  set_column col c2 (set_column col c1 cs) = set_column col c2 cs.
Proof.
  induction cs as [|c0 cs IH]; cbn [set_column].
  - cbn [fst]. now rewrite String.eqb_refl.
  - destruct (String.eqb (fst c0) col) eqn:E; cbn [set_column fst].
    + now rewrite String.eqb_refl.
    + rewrite E. f_equal. exact IH.
Qed.

Lemma getitem_setitem d col c0 c :
  getitem d col = inr c0 -> getitem (setitem d col c) col = inr c.
Proof.
  intros H. apply Impute.getitem_found in H.
  unfold getitem, setitem. cbn [columns].
  now rewrite (Impute.set_column_found _ _ _ _ H).
Qed.

(** C1, as the code has it.  The guard of "Fill with Mean" is pandas'
    [is_numeric_dtype], which rejects a text (object) column and accepts a
    boolean one.  On a text column the run shows the
    cannot-calculate-mean error, stops, and leaves the session, table
    included, exactly as it was.  On a boolean column the run reports
    success and reruns; the column has no missing cell to fill, so the
    session is again exactly as it was. *)
Theorem fill_mean_guard np_sum s d col c :
  df s = Some d ->
  getitem d col = inr c ->
  (dtype c = object_ ->
   apply_transformation np_sum col FillMean s
   = {| session := s;
        messages :=
          [error "Operation failed: Cannot calculate mean for non-numeric column."];
        control := Stop |})
  /\ (dtype c = bool_ ->
      forallb (cell_ok bool_) (values c) = true ->
      apply_transformation np_sum col FillMean s
      = {| session := s;
           messages := [success "Transformation applied."];
           control := Rerun |}).
Proof.
  intros Hd Hc. unfold apply_transformation, applied. rewrite Hd, Hc.
  unfold is_numeric_dtype. split; intros Ht.
  - now rewrite Ht.
  - intros Hok. rewrite Ht.
    assert (Z0 : isnull_sum c = 0%nat).
    { apply no_missing_cells. intros v Hv.
      rewrite forallb_forall in Hok. specialize (Hok v Hv). now destruct v. }
    rewrite (fillna_complete _ c Z0), (setitem_same _ _ _ Hc).
    now rewrite (session_eta _ _ Hd).
Qed.

Lemma fill_mean_guard_witness :
  apply_transformation sum_in_order "city" FillMean session_a_city
  = {| session := session_a_city;
       messages :=
         [error "Operation failed: Cannot calculate mean for non-numeric column."];
       control := Stop |}.
Proof.
  apply (proj1 (fill_mean_guard sum_in_order session_a_city table_a_city
                  "city" col_city eq_refl eq_refl)).
  reflexivity.
Defined.

(** C1 as stated fails: a boolean column is not a numeric one, and "Fill
    with Mean" on it does not fail. *)
Lemma fill_mean_boolean_succeeds :
  dtype col_flag = bool_
  /\ apply_transformation sum_in_order "flag" FillMean session_a_flag
     = {| session := session_a_flag;
          messages := [success "Transformation applied."];
          control := Rerun |}.
Proof. split; reflexivity. Qed.




End Impute.

(** ** Filtering rows by a range *)

Module FilterRange.
Import Lists Pandas App Examples ListFacts.

Lemma select_map {A B : Type} (f : A -> B) mask : forall l,
  select mask (map f l) = map f (select mask l).
Proof.
  induction mask as [|b mask IH]; intros [|x l]; try reflexivity.
  cbn [map select]. destruct b; cbn [map]; now rewrite IH.
Qed.

Lemma get_loc_nth col : forall cs k c,
  get_loc col cs = Some k ->
  find (fun x => String.eqb (fst x) col) cs = Some c ->
  nth_error cs k = Some c.
Proof.
  induction cs as [|c0 cs IH]; intros k c L F; [discriminate|].
  cbn [get_loc find] in *. destruct (String.eqb (fst c0) col).
  - injection L as <-. exact F.
  - destruct (get_loc col cs) as [k'|]; [|discriminate].
    injection L as <-. cbn [nth_error]. now apply IH.
Qed.

(** The row view of a masked table is the masked row view. *)
Lemma rows_mask_rows mask d :
  aligned d -> List.length mask = nrows d ->
  rows (mask_rows mask d) = select mask (rows d).
Proof.
  intros _ Hl. unfold rows, nrows, mask_rows. cbn [index columns].
  rewrite length_select by (symmetry; exact Hl).
  unfold nrows in Hl. rewrite <- Hl, <- transpose_select.
  cbn [map]. rewrite select_map, !map_map. reflexivity.
Qed.

(** What "Apply Filter" computes on a numeric column at position [k]: the
    rows whose cell [k] passes both comparisons, in their order. *)
Lemma apply_filter_rows s d col c k lo hi :
  df s = Some d -> aligned d ->
  getitem d col = inr c -> get_loc col (columns d) = Some k ->
  is_numeric_dtype c = true ->
  let d' := mask_rows (map (between lo hi) (values c)) d in
  apply_filter col (lo, hi) s
  = {| session := with_df s d';
       messages := [success "Filter applied!"];
       control := Rerun |}
  /\ rows d' = filter (fun r => between lo hi (nth (S k) r VNaN)) (rows d).
Proof.
  intros Hd Ha Hc Hk Hn d'. split.
  - unfold apply_filter. now rewrite Hd, Hc, Hn.
  - pose proof (Impute.getitem_found d col c Hc) as F.
    pose proof (get_loc_nth col _ _ _ Hk F) as N.
    assert (Hl : List.length (values c) = nrows d).
    { unfold aligned in Ha. rewrite Forall_forall in Ha.
      apply nth_error_In in N. exact (Ha _ N). }
    unfold d'. rewrite rows_mask_rows by (try rewrite length_map; assumption).
    unfold rows. rewrite <- Hl.
    apply (select_by_column VNaN (between lo hi) (S k)).
    cbn [nth_error]. rewrite nth_error_map, N. reflexivity.
Qed.

(** The two comparisons hold exactly for a present cell whose float64
    lies within the bounds. *)
Lemma between_spec lo hi v :
  between lo hi v = true
  <-> exists q, to_float v = Some q
                /\ F64.leb lo q = true /\ F64.leb q hi = true.
Proof.
  unfold between, ge_scalar, le_scalar. destruct (to_float v) as [q|].
  - rewrite andb_true_iff. split.
    + intros [H1 H2]. now exists q.
    + intros [q' [E [H1 H2]]]. injection E as <-. now split.
  - split; [discriminate | intros [q [E _]]; discriminate].
Qed.

(** A cell that converts to one of the bounds passes. *)
Lemma between_bounds lo hi v :
  F64.leb lo hi = true ->
  to_float v = Some lo \/ to_float v = Some hi ->
  between lo hi v = true.
Proof.
  intros H Hv. destruct (F64Facts.leb_numbers lo hi H) as [Hlo Hhi].
  apply between_spec. destruct Hv as [E | E].
  - exists lo. split; [exact E|]. split; [now apply F64Facts.leb_refl | exact H].
  - exists hi. split; [exact E|]. split; [exact H | now apply F64Facts.leb_refl].
Qed.

Lemma mask_rows_names mask d :
  column_names (mask_rows mask d) = column_names d.
Proof.
  unfold column_names, mask_rows. cbn [columns]. now rewrite map_map.
Qed.

(** C5, as the code has it.  "Apply Filter" on a numeric column with
    bounds [lo <= hi] replaces the table by exactly the rows whose cell in
    that column, converted to float64 as the comparison converts it (an
    int64 is rounded to the nearest float64), is a number [q] with
    [lo <= q <= hi] in the order of float64; both ends are included.  The
    rows keep their order, their labels and all their cells, and the
    columns keep their names, order and dtypes. *)
Theorem apply_filter_closed_interval s d col c k lo hi :
  df s = Some d -> aligned d ->
  getitem d col = inr c -> get_loc col (columns d) = Some k ->
  is_numeric_dtype c = true ->
  F64.leb lo hi = true ->
  exists d',
    apply_filter col (lo, hi) s
    = {| session := with_df s d';
         messages := [success "Filter applied!"];
         control := Rerun |}
    /\ rows d' = filter (fun r => between lo hi (nth (S k) r VNaN)) (rows d)
    /\ (forall r, In r (rows d')
                  <-> In r (rows d)
                      /\ exists q, to_float (nth (S k) r VNaN) = Some q
                                   /\ F64.leb lo q = true
                                   /\ F64.leb q hi = true)
    /\ (forall r, In r (rows d) ->
                  to_float (nth (S k) r VNaN) = Some lo
                  \/ to_float (nth (S k) r VNaN) = Some hi ->
                  In r (rows d'))
    /\ column_names d' = column_names d
    /\ map (fun x => dtype (snd x)) (columns d')
       = map (fun x => dtype (snd x)) (columns d).
Proof.
  intros Hd Ha Hc Hk Hn Hle.
  destruct (apply_filter_rows s d col c k lo hi Hd Ha Hc Hk Hn) as [E R].
  eexists. split; [exact E|]. split; [exact R|]. split; [|split].
  - intros r. rewrite R, filter_In, between_spec. reflexivity.
  - intros r Hr Hb. rewrite R. apply filter_In. split; [exact Hr|].
    now apply between_bounds.
  - split; [apply mask_rows_names|].
    unfold mask_rows. cbn [columns]. now rewrite map_map.
Qed.

(** The end-to-end example: filtering [a] in the range 2..3 keeps the rows
    labelled 1 and 2. *)
Lemma apply_filter_closed_interval_witness :
  exists d',
    apply_filter "a" (F64.of_Z 2, F64.of_Z 3) session_ab
    = {| session := with_df session_ab d';
         messages := [success "Filter applied!"];
         control := Rerun |}
    /\ rows d' = [[VInt 1; VInt 2; VNaN];
                  [VInt 2; VInt 3; VFloat (F64.of_Z 30)]].
Proof.
  assert (Ha : aligned table_ab) by (repeat constructor).
  destruct (apply_filter_closed_interval session_ab table_ab "a" col_a 0
              (F64.of_Z 2) (F64.of_Z 3)
              eq_refl Ha eq_refl eq_refl eq_refl eq_refl)
    as [d' [E [R _]]].
  exists d'. split; [exact E|]. rewrite R. reflexivity.
Defined.

(** C5 as stated fails: the cell is compared as a float64, not as the
    number it holds.  On n=(0, 2^53, 2^53+1) the slider's default bounds
    are 0 and 2^53, and the filter keeps the row holding 2^53+1, a value
    above the upper bound. *)
Lemma apply_filter_keeps_rounded_integer :
  default_range col_n = Some (F64.of_Z 0, F64.of_Z (2 ^ 53))
  /\ exists d' hi,
       session (apply_filter "n" (F64.of_Z 0, F64.of_Z (2 ^ 53)) session_n)
       = with_df session_n d'
       /\ In [VInt 2; VInt (2 ^ 53 + 1)] (rows d')
       /\ F64.to_Q (F64.of_Z (2 ^ 53)) = Some hi
       /\ (hi < inject_Z (2 ^ 53 + 1))%Q.
Proof.
  split; [reflexivity|]. do 2 eexists.
  split; [reflexivity|]. split; [right; right; left; reflexivity|].
  split; [reflexivity|]. reflexivity.
Qed.

Lemma getitem_mask_rows mask d col c :
  getitem d col = inr c ->
  getitem (mask_rows mask d) col
  = inr {| dtype := dtype c; values := select mask (values c) |}.
Proof.
  unfold getitem, mask_rows. cbn [columns].
  induction (columns d) as [|x cs IH]; [discriminate|].
  cbn [map find fst]. destruct (String.eqb (fst x) col).
  - intros H. injection H as <-. reflexivity.
  - exact IH.
Qed.

(** Masking again with the mask recomputed on the masked column changes
    nothing. *)
Lemma mask_rows_again (p : Value -> bool) (c : list Value) d :
  mask_rows (map p (select (map p c) c)) (mask_rows (map p c) d)
  = mask_rows (map p c) d.
Proof.
  unfold mask_rows. cbn [index columns]. f_equal.
  - apply select_again.
  - rewrite map_map. apply map_ext. intros x. cbn [fst snd dtype values].
    now rewrite select_again.
Qed.

(** C8.  "Apply Filter" with the same column and bounds, run on the
    session its first run produced, yields that same session again, with
    the same messages and the same ending: the second filter keeps every
    row the first one kept.  It holds for every session, column and pair
    of bounds, so in particular for a numeric column and [lo <= hi]. *)
Theorem apply_filter_idempotent s col lo hi :
  apply_filter col (lo, hi) (session (apply_filter col (lo, hi) s))
  = apply_filter col (lo, hi) s.
Proof.
  destruct (df s) as [d|] eqn:Hd.
  - destruct (getitem d col) as [e|c] eqn:Hc.
    + assert (E : apply_filter col (lo, hi) s = raised s e).
      { unfold apply_filter. now rewrite Hd, Hc. }
      rewrite E. cbn [raised session]. exact E.
    + destruct (is_numeric_dtype c) eqn:Hn.
      * set (p := between lo hi).
        assert (E : apply_filter col (lo, hi) s
                    = {| session := with_df s (mask_rows (map p (values c)) d);
                         messages := [success "Filter applied!"];
                         control := Rerun |}).
        { unfold apply_filter. now rewrite Hd, Hc, Hn. }
        rewrite E. cbn [session]. unfold apply_filter at 1.
        cbn [df with_df fst snd].
        rewrite (getitem_mask_rows _ _ _ _ Hc).
        unfold is_numeric_dtype in *. cbn [dtype values]. rewrite Hn.
        fold p. rewrite mask_rows_again. reflexivity.
      * assert (E : apply_filter col (lo, hi) s
                    = {| session := s; messages := []; control := Done |}).
        { unfold apply_filter. now rewrite Hd, Hc, Hn. }
        rewrite E. cbn [session]. exact E.
  - assert (E : apply_filter col (lo, hi) s = no_data s).
    { unfold apply_filter. now rewrite Hd. }
    rewrite E. cbn [no_data session]. exact E.
Qed.

(** C10.  "Apply Filter" on a numeric column removes every row whose cell
    in that column is missing, whatever the bounds: NaN passes neither
    comparison, so no such row of the table is a row of the result, and
    no row of the result has a missing cell there. *)
Theorem apply_filter_removes_missing s d col c k lo hi :
  df s = Some d -> aligned d ->
  getitem d col = inr c -> get_loc col (columns d) = Some k ->
  is_numeric_dtype c = true ->
  ge_scalar lo VNaN = false /\ le_scalar hi VNaN = false
  /\ exists d',
       apply_filter col (lo, hi) s
       = {| session := with_df s d';
            messages := [success "Filter applied!"];
            control := Rerun |}
       /\ (forall r, In r (rows d) -> isna (nth (S k) r VNaN) = true ->
                     ~ In r (rows d'))
       /\ (forall r, In r (rows d') -> isna (nth (S k) r VNaN) = false).
Proof.
  intros Hd Ha Hc Hk Hn.
  destruct (apply_filter_rows s d col c k lo hi Hd Ha Hc Hk Hn) as [E R].
  assert (B : forall v, between lo hi v = true -> isna v = false).
  { intros v. now destruct v. }
  split; [reflexivity|]. split; [reflexivity|].
  eexists. split; [exact E|]. split.
  - intros r _ Hna Hin. rewrite R in Hin. apply filter_In in Hin.
    destruct Hin as [_ Hb]. apply B in Hb. congruence.
  - intros r Hin. rewrite R in Hin. apply filter_In in Hin.
    destruct Hin as [_ Hb]. now apply B.
Qed.

(** On a=(1,2,3), b=(10,missing,30): filtering [b] over its whole observed
    range 10..30 loses the row labelled 1. *)
Lemma apply_filter_removes_missing_witness :
  exists d',
    apply_filter "b" (F64.of_Z 10, F64.of_Z 30) session_ab
    = {| session := with_df session_ab d';
         messages := [success "Filter applied!"];
         control := Rerun |}
    /\ ~ In [VInt 1; VInt 2; VNaN] (rows d').
Proof.
  assert (Ha : aligned table_ab) by (repeat constructor).
  destruct (apply_filter_removes_missing session_ab table_ab "b" col_b 1
              (F64.of_Z 10) (F64.of_Z 30) eq_refl Ha eq_refl eq_refl eq_refl)
    as [_ [_ [d' [E [M _]]]]].
  exists d'. split; [exact E|].
  apply M; [right; left|]; reflexivity.
Defined.

End FilterRange.

(** ** The correlation tab *)

Module Correlation.
Import Lists Pandas App Examples.

Section WithPearson.
Variable pearson : list Value -> list Value -> Value.

Lemma empty_spec d :
  empty d = true <-> nrows d = 0%nat \/ columns d = [].
Proof.
  unfold empty, nrows. destruct (index d), (columns d); cbn [List.length];
    split; intros H; try reflexivity; try discriminate;
    try (now left); try (now right);
    destruct H; discriminate.
Qed.

(** C3, as the code has it.  The tab refuses only when [select_dtypes]
    leaves an empty frame: with no float64 or int64 column (or no row)
    it shows "Not enough numeric columns" and computes nothing.  With at
    least one row and at least one numeric column it computes the
    Pearson matrix, one row and one column per numeric column; with
    exactly one numeric column that is a 1x1 matrix. *)
Theorem correlation_tab_guard d :
  (numeric_columns d = 0%nat \/ nrows d = 0%nat ->
   correlation_tab pearson d = NotEnough not_enough)
  /\ (numeric_columns d <> 0%nat -> nrows d <> 0%nat ->
      exists matrix,
        correlation_tab pearson d
        = Heatmap (column_names (select_dtypes d)) matrix
        /\ List.length matrix = numeric_columns d
        /\ Forall (fun r => List.length r = numeric_columns d) matrix)
  /\ (forall n c, columns (select_dtypes d) = [(n, c)] ->
                  nrows d <> 0%nat ->
                  correlation_tab pearson d
                  = Heatmap [n] [[pearson (values c) (values c)]]).
Proof.
  unfold numeric_columns, correlation_tab.
  assert (Hi : nrows (select_dtypes d) = nrows d) by reflexivity.
  split; [|split].
  - intros H.
    assert (E : empty (select_dtypes d) = true).
    { apply empty_spec. rewrite Hi. destruct H as [H|H]; [right|now left].
      now apply length_zero_iff_nil. }
    now rewrite E.
  - intros Hc Hr.
    assert (E : empty (select_dtypes d) = false).
    { apply not_true_is_false. intros E. apply empty_spec in E.
      rewrite Hi in E. destruct E as [E|E]; [contradiction|].
      apply Hc. now rewrite E. }
    rewrite E. cbn [negb corr]. eexists. split; [reflexivity|].
    split; [apply length_map|].
    apply Forall_forall. intros r Hin. apply in_map_iff in Hin.
    destruct Hin as [x [<- _]]. apply length_map.
  - intros n c Hc Hr.
    assert (E : empty (select_dtypes d) = false).
    { apply not_true_is_false. intros E. apply empty_spec in E.
      rewrite Hi, Hc in E. destruct E as [E|E]; [contradiction|discriminate]. }
    rewrite E. cbn [negb corr]. unfold column_names. rewrite Hc. reflexivity.
Qed.
End WithPearson.

Lemma correlation_tab_guard_witness :
  correlation_tab pearson_self table_a_city = Heatmap ["a"] [[VFloat F64.one]].
Proof.
  apply (proj2 (proj2 (correlation_tab_guard pearson_self table_a_city))
               "a" col_a).
  - reflexivity.
  - discriminate.
Defined.

(** Whatever the coefficient function, one numeric column yields a 1x1
    matrix. *)
Lemma one_numeric_column_heatmap pearson :
  correlation_tab pearson table_a_city
  = Heatmap ["a"] [[pearson (values col_a) (values col_a)]].
Proof. reflexivity. Qed.

(** C3 as stated fails: a table with exactly one numeric column gets a
    1x1 matrix, not the "Not enough numeric columns" message. *)
Lemma correlation_one_numeric_column :
  numeric_columns table_a_city = 1%nat
  /\ correlation_tab pearson_self table_a_city = Heatmap ["a"] [[VFloat F64.one]]
  /\ correlation_tab pearson_self table_a_city <> NotEnough not_enough.
Proof. split; [reflexivity|]. split; [reflexivity|discriminate]. Qed.

End Correlation.

(** ** Loading a file *)

Module Load.
Import Lists Pandas App Examples.

Section WithReaders.
Variable read_csv : File -> string + DataFrame.
Variable read_excel : File -> string + DataFrame.

(** The reader [load_data] hands the file to, by suffix. *)
Lemma load_data_csv file :
  endswith (name file) ".csv" = true ->
  load_data read_csv read_excel file
  = match read_csv file with
    | inr d => (Some d, [])
    | inl e => (None, [load_error e])
    end.
Proof. intros H. unfold load_data. now rewrite H. Qed.

Lemma load_data_xlsx file :
  endswith (name file) ".csv" = false ->
  endswith (name file) ".xlsx" = true ->
  load_data read_csv read_excel file
  = match read_excel file with
    | inr d => (Some d, [])
    | inl e => (None, [load_error e])
    end.
Proof. intros H1 H2. unfold load_data. now rewrite H1, H2. Qed.

(** C4, as the code has it.  When the parser chosen by the suffix raises,
    [load_data] returns nothing and shows "Error loading file:" followed
    by the exception's text, and the Ingestion page shows exactly that,
    ends normally and keeps the session.  Whenever [load_data] returns
    nothing, a name with neither suffix included, the page ends normally
    and keeps the session. *)
Theorem load_failure_recovered file s :
  (forall e,
      (endswith (name file) ".csv" = true /\ read_csv file = inl e)
      \/ (endswith (name file) ".csv" = false
          /\ endswith (name file) ".xlsx" = true
          /\ read_excel file = inl e) ->
      load_data read_csv read_excel file
      = (None, [error ("❌ Error loading file: " ++ e)%string])
      /\ ingestion read_csv read_excel (Some file) s
         = {| session := s;
              messages := [error ("❌ Error loading file: " ++ e)%string];
              control := Done |})
  /\ (fst (load_data read_csv read_excel file) = None ->
      session (ingestion read_csv read_excel (Some file) s) = s
      /\ control (ingestion read_csv read_excel (Some file) s) = Done).
Proof.
  split.
  - intros e [[H1 H2] | [H1 [H2 H3]]].
    + assert (E : load_data read_csv read_excel file = (None, [load_error e])).
      { now rewrite load_data_csv, H2. }
      split; [exact E|]. unfold ingestion. now rewrite E.
    + assert (E : load_data read_csv read_excel file = (None, [load_error e])).
      { now rewrite load_data_xlsx, H3. }
      split; [exact E|]. unfold ingestion. now rewrite E.
  - intros H. unfold ingestion.
    destruct (load_data read_csv read_excel file) as [[d|] shown];
      [discriminate|]. split; reflexivity.
Qed.
End WithReaders.

Lemma load_failure_recovered_witness :
  ingestion (rejecting "No columns to parse from file") (rejecting "")
            (Some {| name := "empty.csv"; content := "" |}) session_ab
  = {| session := session_ab;
       messages := [error "❌ Error loading file: No columns to parse from file"];
       control := Done |}.
Proof.
  apply (proj1 (load_failure_recovered
                  (rejecting "No columns to parse from file") (rejecting "")
                  {| name := "empty.csv"; content := "" |} session_ab)
               "No columns to parse from file").
  left. split; reflexivity.
Defined.

(** A name with neither suffix: nothing returned, nothing shown, whatever
    the readers do. *)
Lemma load_data_other_suffix read_csv read_excel file :
  endswith (name file) ".csv" = false ->
  endswith (name file) ".xlsx" = false ->
  load_data read_csv read_excel file = (None, []).
Proof. intros H1 H2. unfold load_data. now rewrite H1, H2. Qed.

(** C4 as stated fails: for a name with neither suffix [load_data] returns
    nothing and shows nothing, and so does the page. *)
Lemma load_other_suffix_silent :
  load_data (rejecting "csv") (rejecting "xlsx")
            {| name := "notes.txt"; content := "a,b" |}
  = (None, [])
  /\ messages (ingestion (rejecting "csv") (rejecting "xlsx")
                 (Some {| name := "notes.txt"; content := "a,b" |})
                 session_ab) = [].
Proof. split; reflexivity. Qed.

End Load.

(** ** What the csv writer writes *)

Module CsvFacts.
Import Csv.
Local Open Scope string_scope.

Lemma append_assoc (a b c : string) : (a ++ b) ++ c = a ++ (b ++ c).
Proof. induction a as [|x a IH]; cbn; [reflexivity | now rewrite IH]. Qed.

Lemma append_nil_r (a : string) : a ++ "" = a.
Proof. induction a as [|x a IH]; cbn; [reflexivity | now rewrite IH]. Qed.


Section RoundTrip.
Variable quotes_cr : bool.
















Lemma count_newlines_append (a b : string) :
  Pandas.count_newlines (a ++ b)
  = (Pandas.count_newlines a + Pandas.count_newlines b)%nat.
Proof.
  induction a as [|x a IH]; cbn [append Pandas.count_newlines]; [reflexivity|].
  rewrite IH. lia.
Qed.

Lemma count_newlines_doubled : forall f,
  Pandas.count_newlines (doubled f) = Pandas.count_newlines f.
Proof.
  induction f as [|c f IH]; [reflexivity|]. cbn [doubled].
  destruct (Ascii.eqb c dquote) eqn:E.
  - apply Ascii.eqb_eq in E. subst c. cbn [Pandas.count_newlines].
    change (Ascii.eqb dquote (ascii_of_nat 10)) with false. cbv iota.
    now rewrite IH.
  - cbn [Pandas.count_newlines]. now rewrite IH.
Qed.

(** Quoting adds no line feed. *)
Lemma count_newlines_field f :
  Pandas.count_newlines (write_field quotes_cr f) = Pandas.count_newlines f.
Proof.
  unfold write_field. destruct (needs_quotes quotes_cr f); [|reflexivity].
  cbn [Pandas.count_newlines]. change (Ascii.eqb dquote (ascii_of_nat 10)) with false.
  cbv iota. rewrite count_newlines_append, count_newlines_doubled.
  cbn [Pandas.count_newlines]. change (Ascii.eqb dquote (ascii_of_nat 10)) with false.
  cbv iota. lia.
Qed.

Lemma concat_cons2 sep x y (l : list string) :
  String.concat sep (x :: y :: l) = x ++ sep ++ String.concat sep (y :: l).
Proof. reflexivity. Qed.

Lemma count_newlines_joined : forall fields : list string,
  Forall (fun f => Pandas.count_newlines f = 0%nat) fields ->
  Pandas.count_newlines
    (String.concat (String comma "") (map (write_field quotes_cr) fields))
  = 0%nat.
Proof.
  induction fields as [|f l IH]; intros H; [reflexivity|].
  inversion H as [|? ? Hf Hl]; subst.
  destruct l as [|g l]; cbn [map].
  - cbn [String.concat]. now rewrite count_newlines_field.
  - rewrite concat_cons2, !count_newlines_append, count_newlines_field, Hf.
    specialize (IH Hl). cbn [map] in IH. rewrite IH. reflexivity.
Qed.

(** A record whose fields hold no line feed is written on one line. *)
Lemma count_newlines_record fields :
  Forall (fun f => Pandas.count_newlines f = 0%nat) fields ->
  Pandas.count_newlines (write_record quotes_cr fields) = 1%nat.
Proof.
  intros H. pose proof (count_newlines_joined fields H) as J.
  unfold write_record. destruct fields as [|f fs]; [reflexivity|].
  destruct (String.concat (String comma "")
                          (map (write_field quotes_cr) (f :: fs)))
    as [|x line]; [reflexivity|].
  rewrite count_newlines_append, J. reflexivity.
Qed.

Lemma concat_nosep_cons x l :
  String.concat "" (x :: l) = x ++ String.concat "" l.
Proof.
  destruct l as [|y l]; cbn [String.concat]; [now rewrite append_nil_r | reflexivity].
Qed.

Lemma count_newlines_records : forall records,
  Forall (Forall (fun f => Pandas.count_newlines f = 0%nat)) records ->
  Pandas.count_newlines (write_records quotes_cr records)
  = List.length records.
Proof.
  unfold write_records.
  induction records as [|r rs IH]; intros H; [reflexivity|].
  inversion H as [|? ? Hr Hrs]; subst. cbn [map].
  rewrite concat_nosep_cons, count_newlines_append,
          (count_newlines_record r Hr), (IH Hrs).
  reflexivity.
Qed.
End RoundTrip.

End CsvFacts.

(** ** The download *)

Module Download.
Import Lists Pandas App Examples.

Lemma length_transpose {A : Type} (d : A) n : forall cols,
  List.length (transpose d n cols) = n.
Proof.
  induction n as [|n IH]; intros cols; [reflexivity|].
  cbn [transpose List.length]. now rewrite IH.
Qed.



Lemma In_names_getitem d col :
  In col (column_names d) -> exists c, getitem d col = inr c.
Proof.
  unfold column_names, getitem. intros H.
  destruct (find (fun c => String.eqb (fst c) col) (columns d)) as [c|] eqn:F.
  - now exists (snd c).
  - exfalso. apply in_map_iff in H. destruct H as [x [E Hx]].
    pose proof (find_none _ _ F x Hx) as N. cbn beta in N.
    rewrite E, String.eqb_refl in N. discriminate.
Qed.


Section WithFormat.
Variable slider_accepts : F64.float -> F64.float -> bool.
Variable quotes_cr : bool.
Variable fmt : Value -> string.


End WithFormat.




End Download.

(** ** What every run of the Transformation page keeps *)

Module Invariants.
Import Lists Pandas App Examples ListFacts.

Lemma getitem_In d col c : getitem d col = inr c -> In (col, c) (columns d).
Proof.
  intros H. apply Impute.getitem_found in H.
  apply find_some in H. tauto.
Qed.

Lemma length_select_le {A : Type} mask : forall l : list A,
  (List.length (select mask l) <= List.length l)%nat.
Proof.
  induction mask as [|b mask IH]; intros [|x l]; cbn [select List.length];
    try lia.
  specialize (IH l). destruct b; cbn [List.length]; lia.
Qed.

Lemma forallb_select {A : Type} (p : A -> bool) mask : forall l,
  forallb p l = true -> forallb p (select mask l) = true.
Proof.
  induction mask as [|b mask IH]; intros [|x l] H; try reflexivity.
  cbn [forallb] in H. apply andb_true_iff in H. destruct H as [Hx Hl].
  cbn [select]. destruct b; cbn [forallb]; rewrite ?Hx; now apply IH.
Qed.

Lemma NoDup_names_filter (f : string * Series -> bool) : forall cs,
  NoDup (map fst cs) -> NoDup (map fst (filter f cs)).
Proof.
  induction cs as [|c cs IH]; intros H; [constructor|].
  cbn [map] in H. inversion H as [|? ? Hn Hd]; subst.
  cbn [filter]. destruct (f c); [|now apply IH].
  cbn [map]. constructor; [|now apply IH].
  intros Hin. apply Hn. apply in_map_iff in Hin.
  destruct Hin as [x [E Hx]]. apply filter_In in Hx.
  apply in_map_iff. exists x. tauto.
Qed.

Lemma Forall_set_column (P : string * Series -> Prop) col s : forall cs,
  Forall P cs -> P (col, s) -> Forall P (set_column col s cs).
Proof.
  induction cs as [|c cs IH]; intros H Hs; cbn [set_column].
  - now constructor.
  - inversion H; subst. destruct (String.eqb (fst c) col); constructor; auto.
Qed.

(** A masked table is well formed when the mask has one entry per row. *)
Lemma mask_rows_well_formed mask d :
  well_formed d -> List.length mask = nrows d ->
  well_formed (mask_rows mask d).
Proof.
  intros [Ha [Ht Hn]] Hl. unfold well_formed. split; [|split].
  - unfold aligned, mask_rows in *. cbn [index columns].
    rewrite Forall_map. eapply Forall_impl; [|exact Ha].
    intros c Hc. cbn [snd values]. unfold nrows in Hl.
    rewrite (length_select mask (values (snd c))) by congruence.
    rewrite (length_select mask (index d)) by congruence. reflexivity.
  - unfold typed, mask_rows in *. cbn [columns].
    rewrite Forall_map. eapply Forall_impl; [|exact Ht].
    intros c Hc. cbn [snd values dtype]. now apply forallb_select.
  - now rewrite FilterRange.mask_rows_names.
Qed.

Lemma column_length d col c :
  well_formed d -> getitem d col = inr c ->
  List.length (values c) = nrows d.
Proof.
  intros [Ha _] H. apply getitem_In in H.
  unfold aligned in Ha. rewrite Forall_forall in Ha. exact (Ha _ H).
Qed.

(** Filling the missing cells of a column keeps the table well formed as
    long as the fill is a float64 value when the column is float64. *)
Lemma fill_well_formed d col c fill :
  well_formed d -> getitem d col = inr c ->
  (dtype c = float64 -> cell_ok float64 fill = true) ->
  well_formed (setitem d col (fillna fill c)).
Proof.
  intros [Ha [Ht Hn]] Hc Hf.
  pose proof (getitem_In _ _ _ Hc) as Hin.
  pose proof (Impute.getitem_found _ _ _ Hc) as F.
  unfold well_formed. split; [|split].
  - unfold aligned, setitem in *. cbn [index columns].
    apply Forall_set_column; [exact Ha|]. cbn [snd fillna values].
    rewrite length_map. rewrite Forall_forall in Ha. exact (Ha _ Hin).
  - unfold typed, setitem in *. cbn [columns].
    apply Forall_set_column; [exact Ht|]. cbn [snd fillna values dtype].
    rewrite Forall_forall in Ht. specialize (Ht _ Hin). cbn [snd] in Ht.
    rewrite forallb_forall in *. intros v Hv. apply in_map_iff in Hv.
    destruct Hv as [v0 [<- Hv0]]. specialize (Ht _ Hv0).
    destruct v0; cbn [isna]; try exact Ht.
    destruct (dtype c); try discriminate; [now apply Hf|].
    now destruct fill.
  - unfold column_names, setitem in *. cbn [columns].
    now rewrite (Impute.set_column_names _ _ _ _ F).
Qed.

Lemma mean_float64 np_sum c : cell_ok float64 (mean np_sum c) = true.
Proof.
  unfold mean, of_float. destruct (non_missing c); [reflexivity|].
  destruct (F64.is_nan _) eqn:E; [reflexivity|]. cbn [cell_ok]. now rewrite E.
Qed.

Lemma drop_well_formed labels d d' :
  well_formed d -> drop labels d = inr d' -> well_formed d'.
Proof.
  intros [Ha [Ht Hn]] H. unfold drop in H.
  destruct (filter _ labels); [|discriminate]. injection H as <-.
  unfold well_formed, aligned, typed, column_names in *. cbn [index columns].
  split; [|split].
  - apply Forall_forall. intros c Hc. apply filter_In in Hc.
    rewrite Forall_forall in Ha. apply Ha. tauto.
  - apply Forall_forall. intros c Hc. apply filter_In in Hc.
    rewrite Forall_forall in Ht. apply Ht. tauto.
  - now apply NoDup_names_filter.
Qed.

(** One run of the page keeps the session's table well formed. *)
Lemma transformation_ok np_sum a s :
  session_ok s -> session_ok (session (transformation np_sum a s)).
Proof.
  unfold session_ok. intros H.
  destruct (df s) as [d|] eqn:Hd.
  2:{ destruct a as [cols|col [| |]|col r]; cbn [transformation];
        unfold execute_drop, apply_transformation, apply_filter;
        rewrite Hd; cbn [no_data session]; now rewrite Hd. }
  destruct a as [cols|col m|col r]; cbn [transformation].
  - unfold execute_drop. rewrite Hd.
    destruct (drop cols d) as [e|d'] eqn:E; cbn [raised session with_df df].
    + now rewrite Hd.
    + eapply drop_well_formed; eassumption.
  - unfold apply_transformation. rewrite Hd. destruct m.
    + unfold dropna. destruct (getitem d col) as [e|c] eqn:Hc;
        cbn [raised applied session with_df df].
      * now rewrite Hd.
      * apply mask_rows_well_formed; [assumption|].
        rewrite length_map. eapply column_length; eassumption.
    + destruct (getitem d col) as [e|c] eqn:Hc;
        cbn [raised applied session with_df df].
      * now rewrite Hd.
      * apply fill_well_formed; try assumption.
        intros ->. reflexivity.
    + destruct (getitem d col) as [e|c] eqn:Hc;
        cbn [raised applied session with_df df].
      * now rewrite Hd.
      * destruct (is_numeric_dtype c); cbn [applied session with_df df].
        -- apply fill_well_formed; try assumption.
           intros _. apply mean_float64.
        -- now rewrite Hd.
  - unfold apply_filter. rewrite Hd.
    destruct (getitem d col) as [e|c] eqn:Hc; cbn [raised session].
    + now rewrite Hd.
    + destruct (is_numeric_dtype c); cbn [session with_df df].
      * apply mask_rows_well_formed; [assumption|].
        rewrite length_map. eapply column_length; eassumption.
      * now rewrite Hd.
Qed.

(** X1.  Whatever sequence of drops, imputations and filters is run, a
    session whose table is well formed (columns as long as the index,
    cells of their column's dtype, no column name twice) ends with a
    well-formed table. *)
Theorem replay_keeps_well_formed np_sum actions : forall s,
  session_ok s -> session_ok (replay np_sum actions s).
Proof.
  induction actions as [|a rest IH]; intros s H; [exact H|].
  cbn [replay]. apply IH. now apply transformation_ok.
Qed.

Lemma table_ab_well_formed : well_formed table_ab.
Proof.
  split; [|split].
  - repeat constructor.
  - repeat constructor.
  - repeat constructor; cbn; intuition discriminate.
Qed.

Lemma replay_keeps_well_formed_witness :
  session_ok (replay sum_in_order [ApplyTransformation "b" FillMean;
                      ApplyFilter "a" (F64.of_Z 2, F64.of_Z 3);
                      ExecuteDrop ["a"]] session_ab).
Proof.
  apply (replay_keeps_well_formed sum_in_order
           [ApplyTransformation "b" FillMean; ApplyFilter "a" (F64.of_Z 2, F64.of_Z 3);
            ExecuteDrop ["a"]] session_ab).
  exact table_ab_well_formed.
Defined.

Lemma within_refl d : within d d.
Proof. unfold within. split; [lia|]. split; [lia|]. apply incl_refl. Qed.

Lemma within_trans d1 d2 d3 : within d1 d2 -> within d2 d3 -> within d1 d3.
Proof.
  unfold within. intros [A1 [B1 C1]] [A2 [B2 C2]].
  split; [lia|]. split; [lia|]. eapply incl_tran; eassumption.
Qed.

Lemma within_mask mask d : within (mask_rows mask d) d.
Proof.
  unfold within, nrows, total_columns. split; [|split].
  - unfold mask_rows. cbn [index]. apply length_select_le.
  - unfold mask_rows. cbn [columns]. rewrite length_map. lia.
  - rewrite FilterRange.mask_rows_names. apply incl_refl.
Qed.

Lemma within_fill d col c fill :
  getitem d col = inr c -> within (setitem d col (fillna fill c)) d.
Proof.
  intros Hc. apply Impute.getitem_found in Hc.
  assert (E : column_names (setitem d col (fillna fill c)) = column_names d).
  { unfold column_names, setitem. cbn [columns].
    eapply Impute.set_column_names; eassumption. }
  unfold within, nrows, total_columns. split; [reflexivity|]. split.
  - unfold column_names in E. apply (f_equal (@List.length string)) in E.
    rewrite !length_map in E. lia.
  - rewrite E. apply incl_refl.
Qed.

Lemma within_drop labels d d' : drop labels d = inr d' -> within d' d.
Proof.
  unfold drop. destruct (filter _ labels); [|discriminate].
  intros H. injection H as <-.
  unfold within, nrows, total_columns, column_names. cbn [index columns].
  split; [lia|]. split; [apply filter_length_le|].
  intros x Hx. apply in_map_iff in Hx. destruct Hx as [c [<- Hc]].
  apply filter_In in Hc. apply in_map. tauto.
Qed.

Lemma transformation_within np_sum a s d :
  df s = Some d ->
  exists d', df (session (transformation np_sum a s)) = Some d' /\ within d' d.
Proof.
  intros Hd.
  assert (Same : exists d', df s = Some d' /\ within d' d).
  { exists d. split; [exact Hd | apply within_refl]. }
  destruct a as [cols|col m|col r]; cbn [transformation].
  - unfold execute_drop. rewrite Hd.
    destruct (drop cols d) as [e|d'] eqn:E; cbn [raised session with_df df].
    + exact Same.
    + exists d'. split; [reflexivity|]. eapply within_drop; eassumption.
  - unfold apply_transformation, dropna. rewrite Hd.
    destruct (getitem d col) as [e|c] eqn:Hc.
    + destruct m; cbn [raised session]; exact Same.
    + destruct m; [| |destruct (is_numeric_dtype c)];
        cbn [applied session with_df df]; try exact Same;
        eexists; (split; [reflexivity|]);
        first [apply within_mask | now apply within_fill].
  - unfold apply_filter. rewrite Hd.
    destruct (getitem d col) as [e|c] eqn:Hc; cbn [raised session].
    + exact Same.
    + destruct (is_numeric_dtype c); cbn [session with_df df].
      * eexists. split; [reflexivity | apply within_mask].
      * exact Same.
Qed.

Lemma transformation_file_name np_sum a s :
  file_name (session (transformation np_sum a s)) = file_name s.
Proof.
  destruct a as [cols|col m|col r]; cbn [transformation];
    unfold execute_drop, apply_transformation, apply_filter, dropna;
    destruct (df s) as [d|]; try reflexivity.
  - now destruct (drop cols d).
  - destruct (getitem d col) as [e|c]; destruct m; try reflexivity.
    now destruct (is_numeric_dtype c).
  - destruct (getitem d col) as [e|c]; try reflexivity.
    now destruct (is_numeric_dtype c).
Qed.

Lemma transformation_no_data np_sum a s :
  df s = None -> session (transformation np_sum a s) = s.
Proof.
  intros H. destruct a as [cols|col m|col r]; cbn [transformation];
    unfold execute_drop, apply_transformation, apply_filter;
    now rewrite H.
Qed.

(** What a sequence of runs keeps: the file name, the absence of a table,
    and a table within the one it started from. *)
Lemma replay_bounds np_sum actions : forall s,
  file_name (replay np_sum actions s) = file_name s
  /\ (df s = None -> replay np_sum actions s = s)
  /\ (forall d, df s = Some d ->
        exists d', df (replay np_sum actions s) = Some d' /\ within d' d).
Proof.
  induction actions as [|a rest IH]; intros s; cbn [replay].
  - split; [reflexivity|]. split; [reflexivity|].
    intros d Hd. exists d. split; [exact Hd|]. apply within_refl.
  - destruct (IH (session (transformation np_sum a s))) as [F [N G]].
    split; [|split].
    + now rewrite F, transformation_file_name.
    + intros Hn. rewrite (transformation_no_data np_sum a s Hn) in *. auto.
    + intros d Hd.
      destruct (transformation_within np_sum a s d Hd) as [d1 [H1 W1]].
      destruct (G d1 H1) as [d2 [H2 W2]].
      exists d2. split; [exact H2|].
      exact (within_trans d2 d1 d (W2) W1).
Qed.

(** X2.  No sequence of drops, imputations and filters changes the stored
    file name, creates a table where there was none, loses the table, adds
    a row, adds a column or introduces a column name. *)
Theorem replay_never_grows np_sum actions : forall s,
  file_name (replay np_sum actions s) = file_name s
  /\ (df s = None -> replay np_sum actions s = s)
  /\ (forall d, df s = Some d ->
        exists d',
          df (replay np_sum actions s) = Some d'
          /\ (nrows d' <= nrows d)%nat
          /\ (total_columns d' <= total_columns d)%nat
          /\ incl (column_names d') (column_names d)).
Proof. exact (replay_bounds np_sum actions). Qed.

Lemma replay_never_grows_witness :
  exists d',
    df (replay sum_in_order [ApplyFilter "a" (F64.of_Z 2, F64.of_Z 3); ExecuteDrop ["a"]] session_ab)
    = Some d'
    /\ (nrows d' <= 3)%nat /\ (total_columns d' <= 2)%nat
    /\ incl (column_names d') ["a"; "b"].
Proof.
  exact (proj2 (proj2 (replay_never_grows sum_in_order
                         [ApplyFilter "a" (F64.of_Z 2, F64.of_Z 3); ExecuteDrop ["a"]]
                         session_ab))
               table_ab eq_refl).
Defined.

(** X3.  A run of the page that does not end in a rerun (no table, an
    exception from pandas, the cannot-calculate-mean stop, a filter on a
    column that is not numeric) leaves the session as it found it. *)
Theorem transformation_rejected_keeps_session np_sum a s :
  control (transformation np_sum a s) <> Rerun ->
  session (transformation np_sum a s) = s.
Proof.
  destruct a as [cols|col m|col r]; cbn [transformation];
    unfold execute_drop, apply_transformation, apply_filter, dropna;
    destruct (df s) as [d|]; try reflexivity.
  - destruct (drop cols d); [reflexivity|].
    cbn [control]. congruence.
  - destruct (getitem d col) as [e|c]; destruct m; try reflexivity;
      try (cbn [applied control]; congruence).
    destruct (is_numeric_dtype c); [cbn [applied control]; congruence|].
    reflexivity.
  - destruct (getitem d col) as [e|c]; try reflexivity.
    destruct (is_numeric_dtype c); [cbn [control]; congruence|reflexivity].
Qed.

Lemma transformation_rejected_keeps_session_witness :
  session (transformation sum_in_order (ApplyFilter "city" (F64.of_Z 0, F64.of_Z 1)) session_a_city)
  = session_a_city.
Proof.
  apply (transformation_rejected_keeps_session sum_in_order
           (ApplyFilter "city" (F64.of_Z 0, F64.of_Z 1)) session_a_city).
  discriminate.
Defined.

End Invariants.

(** ** More on imputation *)

Module Imputation.
Import Lists Pandas App Examples ListFacts Impute.

(** X4.  "Fill with 0" on an existing column succeeds; every missing cell
    of the column becomes 0 (0.0 in a float64 column), every present cell
    is kept, no missing cell is left, and nothing else moves: same row
    labels, same column names in order, every other column untouched in
    its place.  (The dtype of the filled column is left unstated: pandas
    may infer a new one for an object column left without text.) *)
Theorem fill_zero_fills np_sum s d col c :
  df s = Some d ->
  getitem d col = inr c ->
  exists d' c',
    apply_transformation np_sum col FillZero s
    = {| session := with_df s d';
         messages := [success "Transformation applied."];
         control := Rerun |}
    /\ getitem d' col = inr c'
    /\ values c'
       = map (fun v => if isna v then zero_of (dtype c) else v) (values c)
    /\ isnull_sum c' = 0%nat
    /\ index d' = index d
    /\ column_names d' = column_names d
    /\ (forall k x, nth_error (columns d) k = Some x -> fst x <> col ->
                    nth_error (columns d') k = Some x).
Proof.
  intros Hd Hc. pose proof (Impute.getitem_found d col c Hc) as F.
  exists (setitem d col (fillna (zero_of (dtype c)) c)),
         (fillna (zero_of (dtype c)) c).
  split. { unfold apply_transformation, applied. now rewrite Hd, Hc. }
  split. { eapply getitem_setitem; eassumption. }
  split; [reflexivity|].
  split. { apply isnull_fillna. now destruct (dtype c). }
  split; [reflexivity|].
  split. { unfold column_names, setitem. cbn [columns].
           eapply Impute.set_column_names; eassumption. }
  intros k x N Hx. unfold setitem. cbn [columns].
  eapply Impute.set_column_others; eassumption.
Qed.

Lemma fill_zero_fills_witness :
  exists d' c',
    apply_transformation sum_in_order "city" FillZero session_a_city
    = {| session := with_df session_a_city d';
         messages := [success "Transformation applied."];
         control := Rerun |}
    /\ getitem d' "city" = inr c'
    /\ values c' = [VStr "Oslo"; VInt 0; VStr "Lima"].
Proof.
  destruct (fill_zero_fills sum_in_order session_a_city table_a_city
              "city" col_city
              eq_refl eq_refl) as [d' [c' [E [G [V _]]]]].
  exists d', c'. split; [exact E|]. split; [exact G|]. exact V.
Defined.

(** X5.  A fill that has nothing to do still reports success and reruns,
    and the session is the one it found: "Fill with 0" on a column with
    no missing cell (for an object column, one holding some text, so that
    pandas has no other dtype to infer), "Fill with Mean" on a numeric
    column with no missing cell, and "Fill with Mean" on a numeric column
    with every cell missing (its mean is NaN). *)
Theorem fill_without_effect np_sum s d col c method :
  df s = Some d ->
  getitem d col = inr c ->
  (method = FillZero /\ isnull_sum c = 0%nat
   /\ (dtype c <> object_ \/ exists t, In (VStr t) (values c)))
  \/ (method = FillMean /\ is_numeric_dtype c = true
      /\ (isnull_sum c = 0%nat \/ non_missing c = [])) ->
  apply_transformation np_sum col method s
  = {| session := s;
       messages := [success "Transformation applied."];
       control := Rerun |}.
Proof.
  intros Hd Hc H. unfold apply_transformation, applied. rewrite Hd.
  destruct H as [[-> [H0 _]] | [-> [Hn H]]]; rewrite Hc.
  - rewrite (fillna_complete _ _ H0), (setitem_same _ _ _ Hc).
    now rewrite (session_eta _ _ Hd).
  - rewrite Hn.
    assert (E : fillna (mean np_sum c) c = c).
    { destruct H as [H|H]; [now apply fillna_complete|].
      unfold mean. rewrite H. apply fillna_nan. }
    rewrite E, (setitem_same _ _ _ Hc). now rewrite (session_eta _ _ Hd).
Qed.

Lemma fill_without_effect_witness :
  apply_transformation sum_in_order "v" FillMean session_a_void
  = {| session := session_a_void;
       messages := [success "Transformation applied."];
       control := Rerun |}.
Proof.
  apply (fill_without_effect sum_in_order session_a_void table_a_void
           "v" col_void FillMean
           eq_refl eq_refl).
  right. split; [reflexivity|]. split; [reflexivity|]. right. reflexivity.
Defined.

Lemma setitem_twice d col c1 c2 :
  setitem (setitem d col c1) col c2 = setitem d col c2.
Proof.
  unfold setitem. cbn [index columns]. now rewrite set_column_twice.
Qed.

(** X7.  "Apply Transformation" is idempotent for each of its three
    methods: run again with the same column and method on the session the
    first run left, it returns that same session, with the same messages
    and the same ending. *)
Theorem apply_transformation_idempotent np_sum col method s :
  apply_transformation np_sum col method
    (session (apply_transformation np_sum col method s))
  = apply_transformation np_sum col method s.
Proof.
  destruct (df s) as [d|] eqn:Hd.
  2:{ assert (E : apply_transformation np_sum col method s = no_data s).
      { unfold apply_transformation. now rewrite Hd. }
      rewrite E. cbn [no_data session]. exact E. }
  destruct (getitem d col) as [e|c] eqn:Hc.
  { assert (E : apply_transformation np_sum col method s = raised s e).
    { unfold apply_transformation, dropna. rewrite Hd, Hc.
      now destruct method. }
    rewrite E. cbn [raised session]. exact E. }
  destruct method.
  - set (p := fun v => negb (isna v)).
    assert (E : apply_transformation np_sum col DropRows s
                = applied s (mask_rows (map p (values c)) d)).
    { unfold apply_transformation, dropna. now rewrite Hd, Hc. }
    rewrite E. cbn [applied session].
    unfold apply_transformation, dropna. cbn [df with_df].
    rewrite (FilterRange.getitem_mask_rows _ _ _ _ Hc). cbn [values].
    fold p. rewrite FilterRange.mask_rows_again. reflexivity.
  - set (c' := fillna (zero_of (dtype c)) c).
    assert (E : apply_transformation np_sum col FillZero s
                = applied s (setitem d col c')).
    { unfold apply_transformation. now rewrite Hd, Hc. }
    rewrite E. cbn [applied session].
    unfold apply_transformation. cbn [df with_df].
    rewrite (getitem_setitem d col c c' Hc).
    change (dtype c') with (dtype c).
    assert (Ec : fillna (zero_of (dtype c)) c' = c')
      by (unfold c'; apply fillna_idem).
    rewrite Ec, setitem_twice. reflexivity.
  - destruct (is_numeric_dtype c) eqn:Hn.
    + set (c' := fillna (mean np_sum c) c).
      assert (E : apply_transformation np_sum col FillMean s
                  = applied s (setitem d col c')).
      { unfold apply_transformation. now rewrite Hd, Hc, Hn. }
      rewrite E. cbn [applied session].
      unfold apply_transformation. cbn [df with_df].
      rewrite (getitem_setitem d col c c' Hc).
      assert (Hn' : is_numeric_dtype c' = true) by exact Hn.
      rewrite Hn'.
      assert (Ec : fillna (mean np_sum c') c' = c').
      { destruct (isna (mean np_sum c)) eqn:Em.
        - assert (Ecc : c' = c).
          { unfold c'. destruct (mean np_sum c); try discriminate.
            apply fillna_nan. }
          rewrite Ecc. fold c'. now rewrite Ecc.
        - apply fillna_complete. unfold c'. now apply isnull_fillna. }
      rewrite Ec, setitem_twice. reflexivity.
    + assert (E : apply_transformation np_sum col FillMean s
                  = {| session := s; messages := [cannot_mean];
                       control := Stop |}).
      { unfold apply_transformation. now rewrite Hd, Hc, Hn. }
      rewrite E. cbn [session]. exact E.
Qed.

(** What "Drop Rows" computes on the column at position [k]. *)
Lemma drop_rows_rows np_sum s d col c k :
  df s = Some d -> aligned d ->
  getitem d col = inr c -> get_loc col (columns d) = Some k ->
  let d' := mask_rows (map (fun v => negb (isna v)) (values c)) d in
  apply_transformation np_sum col DropRows s = applied s d'
  /\ rows d' = filter (fun r => negb (isna (nth (S k) r VNaN))) (rows d).
Proof.
  intros Hd Ha Hc Hk d'. split.
  - unfold apply_transformation, dropna. now rewrite Hd, Hc.
  - pose proof (Impute.getitem_found d col c Hc) as F.
    pose proof (FilterRange.get_loc_nth col _ _ _ Hk F) as N.
    assert (Hl : List.length (values c) = nrows d).
    { unfold aligned in Ha. rewrite Forall_forall in Ha.
      apply nth_error_In in N. exact (Ha _ N). }
    unfold d'.
    rewrite FilterRange.rows_mask_rows
      by (try rewrite length_map; assumption).
    unfold rows. rewrite <- Hl.
    apply (select_by_column VNaN (fun v => negb (isna v)) (S k)).
    cbn [nth_error]. rewrite nth_error_map, N. reflexivity.
Qed.

Lemma select_present : forall l : list Value,
  Forall (fun v => isna v = false)
         (select (map (fun v => negb (isna v)) l) l).
Proof.
  induction l as [|v l IH]; [constructor|].
  cbn [map select]. destruct (isna v) eqn:E; cbn [negb]; [exact IH|].
  now constructor.
Qed.

(** X8.  "Drop Rows" on an existing column keeps exactly the rows whose
    cell in that column is present, in their order and with all their
    cells; the columns keep their names and order, and the column is left
    with no missing cell. *)
Theorem drop_rows_keeps_present np_sum s d col c k :
  df s = Some d -> aligned d ->
  getitem d col = inr c -> get_loc col (columns d) = Some k ->
  exists d' c',
    apply_transformation np_sum col DropRows s
    = {| session := with_df s d';
         messages := [success "Transformation applied."];
         control := Rerun |}
    /\ rows d' = filter (fun r => negb (isna (nth (S k) r VNaN))) (rows d)
    /\ column_names d' = column_names d
    /\ getitem d' col = inr c'
    /\ isnull_sum c' = 0%nat.
Proof.
  intros Hd Ha Hc Hk.
  destruct (drop_rows_rows np_sum s d col c k Hd Ha Hc Hk) as [E R].
  eexists. eexists. split; [exact E|]. split; [exact R|].
  split; [apply FilterRange.mask_rows_names|].
  split; [apply (FilterRange.getitem_mask_rows _ _ _ _ Hc)|].
  apply no_missing_cells. cbn [values]. intros v Hv.
  pose proof (select_present (values c)) as P.
  rewrite Forall_forall in P. now apply P.
Qed.

Lemma drop_rows_keeps_present_witness :
  exists d',
    apply_transformation sum_in_order "b" DropRows session_ab
    = {| session := with_df session_ab d';
         messages := [success "Transformation applied."];
         control := Rerun |}
    /\ rows d' = [[VInt 0; VInt 1; VFloat (F64.of_Z 10)];
                  [VInt 2; VInt 3; VFloat (F64.of_Z 30)]].
Proof.
  assert (Ha : aligned table_ab) by (repeat constructor).
  destruct (drop_rows_keeps_present sum_in_order session_ab table_ab
              "b" col_b 1
              eq_refl Ha eq_refl eq_refl) as [d' [c' [E [R _]]]].
  exists d'. split; [exact E|]. rewrite R. reflexivity.
Defined.

End Imputation.

(** ** The missing-data tab and the "Missing Values" metric *)

Module Missing.
Import Lists Pandas App Examples ListFacts.

Lemma total_positive : forall counts,
  total (filter (fun c => (0 <? snd c)%nat) counts) = total counts.
Proof.
  induction counts as [|c l IH]; [reflexivity|].
  cbn [filter total fold_right]. destruct (0 <? snd c)%nat eqn:E.
  - cbn [total fold_right]. unfold total in IH. now rewrite IH.
  - apply Nat.ltb_ge in E. unfold total in *. rewrite IH. lia.
Qed.

Lemma total_zero : forall counts,
  total counts = 0%nat <-> forall c, In c counts -> snd c = 0%nat.
Proof.
  induction counts as [|c l IH]; cbn [total fold_right].
  - split; [intros _ c [] | reflexivity].
  - fold (total l). split.
    + intros H x [<- | Hx]; [lia|]. apply IH; [lia | exact Hx].
    + intros H. rewrite (H c) by now left.
      apply IH. intros x Hx. apply H. now right.
Qed.

Lemma In_isnull_sums d n k :
  In (n, k) (isnull_sums d)
  <-> exists c, In (n, c) (columns d) /\ isnull_sum c = k.
Proof.
  unfold isnull_sums. rewrite in_map_iff. split.
  - intros [[n0 c] [E H]]. cbn [fst snd] in E. injection E as <- <-.
    now exists c.
  - intros [c [H <-]]. now exists (n, c).
Qed.

(** X9.  The missing-data tab says the dataset is clean exactly when no
    cell of the table is missing, which is when the "Missing Values"
    metric is 0.  Otherwise its bar chart lists exactly the columns with
    at least one missing cell, each with its count, and the bars add up
    to the "Missing Values" metric. *)
Theorem missing_tab_charts_missing d :
  (missing_values d = 0%nat
   <-> forall n c v, In (n, c) (columns d) -> In v (values c) ->
                     isna v = false)
  /\ (missing_tab d = Clean dataset_clean <-> missing_values d = 0%nat)
  /\ (missing_values d <> 0%nat ->
      exists bars,
        missing_tab d = BarChart bars
        /\ (forall n k, In (n, k) bars
                        <-> exists c, In (n, c) (columns d)
                                      /\ isnull_sum c = k /\ (0 < k)%nat)
        /\ total bars = missing_values d).
Proof.
  unfold missing_values, missing_tab. split; [|split].
  - rewrite total_zero. split.
    + intros H n c v Hc Hv.
      assert (Z0 : isnull_sum c = 0%nat).
      { apply (H (n, isnull_sum c)). apply In_isnull_sums. now exists c. }
      rewrite Impute.no_missing_cells in Z0. now apply Z0.
    + intros H [n k] Hin. cbn [snd]. apply In_isnull_sums in Hin.
      destruct Hin as [c [Hc <-]]. apply Impute.no_missing_cells.
      intros v Hv. eapply H; eassumption.
  - destruct (0 <? total (isnull_sums d))%nat eqn:E.
    + apply Nat.ltb_lt in E. split; [discriminate | lia].
    + apply Nat.ltb_ge in E. split; [lia | reflexivity].
  - intros Hne.
    assert (E : (0 <? total (isnull_sums d))%nat = true)
      by (apply Nat.ltb_lt; lia).
    rewrite E. eexists. split; [reflexivity|]. split.
    + intros n k. rewrite filter_In, In_isnull_sums. cbn [snd].
      rewrite Nat.ltb_lt. split.
      * intros [[c [Hc Hk]] Hp]. now exists c.
      * intros [c [Hc [Hk Hp]]]. split; [now exists c | exact Hp].
    + apply total_positive.
Qed.

Lemma missing_tab_charts_missing_witness :
  exists bars,
    missing_tab table_abc = BarChart bars
    /\ total bars = 2%nat
    /\ (In ("b", 1%nat) bars
        <-> exists c, In ("b", c) (columns table_abc)
                      /\ isnull_sum c = 1%nat /\ (0 < 1)%nat).
Proof.
  assert (Hne : missing_values table_abc <> 0%nat) by discriminate.
  destruct (proj2 (proj2 (missing_tab_charts_missing table_abc)) Hne)
    as [bars [E [B T]]].
  exists bars. split; [exact E|]. split; [rewrite T; reflexivity|].
  apply B.
Defined.

Lemma unique_column : forall (cs : list (string * Series)) n c1 c2,
  NoDup (map fst cs) -> In (n, c1) cs -> In (n, c2) cs -> c1 = c2.
Proof.
  induction cs as [|x cs IH]; intros n c1 c2 Hn H1 H2; [contradiction|].
  cbn [map] in Hn. inversion Hn as [|? ? Hx Hd]; subst.
  destruct H1 as [-> | H1], H2 as [E | H2].
  - now injection E.
  - exfalso. apply Hx. cbn [fst]. apply in_map_iff. now exists (n, c2).
  - exfalso. apply Hx. rewrite E. cbn [fst]. apply in_map_iff. now exists (n, c1).
  - eapply IH; eassumption.
Qed.

(** A column with no missing cell is not charted. *)
Lemma complete_column_not_charted d col c :
  NoDup (column_names d) -> getitem d col = inr c ->
  isnull_sum c = 0%nat ->
  forall bars, missing_tab d = BarChart bars -> ~ In col (map fst bars).
Proof.
  intros Hn Hc Hz bars Hb Hin. unfold missing_tab in Hb.
  destruct (0 <? total (isnull_sums d))%nat; [|discriminate].
  injection Hb as <-. apply in_map_iff in Hin.
  destruct Hin as [[n k] [E Hin]]. cbn [fst] in E. subst n.
  apply filter_In in Hin. destruct Hin as [Hin Hp]. cbn [snd] in Hp.
  apply Nat.ltb_lt in Hp. apply In_isnull_sums in Hin.
  destruct Hin as [c0 [H0 Hk]].
  pose proof (Invariants.getitem_In _ _ _ Hc) as H1.
  rewrite (unique_column _ _ _ _ Hn H0 H1) in Hk. lia.
Qed.

(** X10.  After a successful imputation of a column ("Drop Rows",
    "Fill with 0", or "Fill with Mean" on a numeric column whose mean is a
    number) the column has no missing cell left, so the missing-data
    chart no longer lists it.  (The mean of a column with a value present
    is NaN only when its sum is, as for cells +inf and -inf.) *)
Theorem imputation_clears_column np_sum s d col c method :
  df s = Some d ->
  NoDup (column_names d) ->
  getitem d col = inr c ->
  (method = FillMean ->
   is_numeric_dtype c = true /\ mean np_sum c <> VNaN) ->
  exists d' c',
    apply_transformation np_sum col method s
    = {| session := with_df s d';
         messages := [success "Transformation applied."];
         control := Rerun |}
    /\ getitem d' col = inr c'
    /\ isnull_sum c' = 0%nat
    /\ (forall bars, missing_tab d' = BarChart bars -> ~ In col (map fst bars)).
Proof.
  intros Hd Hn Hc Hm.
  assert (Fin : forall d' c',
             apply_transformation np_sum col method s = applied s d' ->
             column_names d' = column_names d ->
             getitem d' col = inr c' -> isnull_sum c' = 0%nat ->
             exists d' c',
               apply_transformation np_sum col method s
               = {| session := with_df s d';
                    messages := [success "Transformation applied."];
                    control := Rerun |}
               /\ getitem d' col = inr c'
               /\ isnull_sum c' = 0%nat
               /\ (forall bars, missing_tab d' = BarChart bars ->
                                ~ In col (map fst bars))).
  { intros d' c' E Hnames G Z. exists d', c'.
    split; [exact E|]. split; [exact G|]. split; [exact Z|].
    apply (complete_column_not_charted d' col c'); try assumption.
    now rewrite Hnames. }
  pose proof (Impute.getitem_found d col c Hc) as F.
  destruct method.
  - eapply Fin.
    + unfold apply_transformation, dropna. rewrite Hd, Hc. reflexivity.
    + apply FilterRange.mask_rows_names.
    + apply (FilterRange.getitem_mask_rows _ _ _ _ Hc).
    + apply Impute.no_missing_cells. cbn [values]. intros v Hv.
      pose proof (Imputation.select_present (values c)) as P.
      rewrite Forall_forall in P. now apply P.
  - eapply Fin.
    + unfold apply_transformation. rewrite Hd, Hc. reflexivity.
    + unfold column_names, setitem. cbn [columns].
      eapply Impute.set_column_names; eassumption.
    + eapply Impute.getitem_setitem; eassumption.
    + apply Impute.isnull_fillna. now destruct (dtype c).
  - destruct (Hm eq_refl) as [Hnum Hne]. eapply Fin.
    + unfold apply_transformation. rewrite Hd, Hc, Hnum. reflexivity.
    + unfold column_names, setitem. cbn [columns].
      eapply Impute.set_column_names; eassumption.
    + eapply Impute.getitem_setitem; eassumption.
    + apply Impute.isnull_fillna.
      destruct (mean np_sum c); try reflexivity. congruence.
Qed.

Lemma imputation_clears_column_witness :
  exists d' c',
    apply_transformation sum_in_order "b" FillMean session_abc
    = {| session := with_df session_abc d';
         messages := [success "Transformation applied."];
         control := Rerun |}
    /\ getitem d' "b" = inr c'
    /\ isnull_sum c' = 0%nat.
Proof.
  assert (Hn : NoDup (column_names table_abc)).
  { repeat constructor; cbn; intuition discriminate. }
  assert (Hm : FillMean = FillMean ->
               is_numeric_dtype col_b = true
               /\ mean sum_in_order col_b <> VNaN).
  { intros _. split; [reflexivity | discriminate]. }
  destruct (imputation_clears_column sum_in_order session_abc table_abc
              "b" col_b FillMean
              eq_refl Hn eq_refl Hm) as [d' [c' [E [G [Z _]]]]].
  exists d', c'. split; [exact E|]. split; [exact G | exact Z].
Defined.

End Missing.

(** ** How filters compose *)

Module Filters.
Import Lists Pandas App Examples ListFacts.

(** Masking by [m1] and then by [m2] read on what is left is masking by
    both at once. *)
Lemma select_select {A : Type} : forall (m1 m2 : list bool) (l : list A),
  select (select m1 m2) (select m1 l)
  = select (map (fun p => fst p && snd p) (combine m1 m2)) l.
Proof.
  induction m1 as [|b1 m1 IH]; intros m2 l; [reflexivity|].
  destruct m2 as [|b2 m2]; [reflexivity|].
  destruct l as [|x l]; [now rewrite !select_nil_r|].
  destruct b1, b2; cbn [select combine map fst snd andb];
    now rewrite IH.
Qed.

Lemma both_comm : forall m1 m2 : list bool,
  map (fun p => fst p && snd p) (combine m1 m2)
  = map (fun p => fst p && snd p) (combine m2 m1).
Proof.
  induction m1 as [|b1 m1 IH]; intros [|b2 m2]; try reflexivity.
  cbn [combine map fst snd]. now rewrite andb_comm, IH.
Qed.

Lemma mask_rows_twice m1 m2 d :
  mask_rows (select m1 m2) (mask_rows m1 d)
  = mask_rows (map (fun p => fst p && snd p) (combine m1 m2)) d.
Proof.
  unfold mask_rows. cbn [index columns]. f_equal.
  - apply select_select.
  - rewrite map_map. apply map_ext. intros c. cbn [fst snd dtype values].
    now rewrite select_select.
Qed.

Lemma apply_filter_session s d col r :
  df s = Some d ->
  session (apply_filter col r s)
  = match filter_mask d col r with
    | Some m => with_df s (mask_rows m d)
    | None => s
    end.
Proof.
  intros Hd. unfold apply_filter, filter_mask. rewrite Hd.
  destruct (getitem d col) as [e|c]; [reflexivity|].
  now destruct (is_numeric_dtype c).
Qed.

Lemma filter_mask_masked m d col r :
  filter_mask (mask_rows m d) col r
  = option_map (select m) (filter_mask d col r).
Proof.
  unfold filter_mask. destruct (getitem d col) as [e|c] eqn:Hc.
  - unfold getitem in *.
    assert (E : find (fun c => String.eqb (fst c) col) (columns (mask_rows m d))
                = None).
    { unfold mask_rows. cbn [columns].
      destruct (find _ (columns d)) as [x|] eqn:F; [discriminate|].
      clear Hc. induction (columns d) as [|x cs IH]; [reflexivity|].
      cbn [map find fst] in *. destruct (String.eqb (fst x) col);
        [discriminate | now apply IH]. }
    now rewrite E.
  - rewrite (FilterRange.getitem_mask_rows _ _ _ _ Hc).
    unfold is_numeric_dtype. cbn [dtype values].
    destruct (dtype c); cbn [option_map]; try reflexivity;
      now rewrite FilterRange.select_map.
Qed.

Lemma apply_filter_no_data s col r :
  df s = None -> session (apply_filter col r s) = s.
Proof. intros H. unfold apply_filter. now rewrite H. Qed.

(** X11.  Range filters commute: two "Apply Filter" runs, on the same or
    on different columns, leave the same session in either order. *)
Theorem filters_commute s col1 r1 col2 r2 :
  session (apply_filter col2 r2 (session (apply_filter col1 r1 s)))
  = session (apply_filter col1 r1 (session (apply_filter col2 r2 s))).
Proof.
  destruct (df s) as [d|] eqn:Hd.
  2:{ repeat rewrite (apply_filter_no_data s _ _ Hd). reflexivity. }
  rewrite (apply_filter_session s d col1 r1 Hd).
  rewrite (apply_filter_session s d col2 r2 Hd).
  destruct (filter_mask d col1 r1) as [m1|] eqn:E1;
    destruct (filter_mask d col2 r2) as [m2|] eqn:E2.
  - rewrite (apply_filter_session (with_df s (mask_rows m1 d)) (mask_rows m1 d)
               col2 r2 eq_refl).
    rewrite (apply_filter_session (with_df s (mask_rows m2 d)) (mask_rows m2 d)
               col1 r1 eq_refl).
    rewrite !filter_mask_masked, E1, E2. cbn [option_map].
    rewrite !mask_rows_twice, (both_comm m2 m1). reflexivity.
  - rewrite (apply_filter_session (with_df s (mask_rows m1 d)) (mask_rows m1 d)
               col2 r2 eq_refl).
    rewrite filter_mask_masked, E2. cbn [option_map].
    rewrite (apply_filter_session s d col1 r1 Hd), E1. reflexivity.
  - rewrite (apply_filter_session (with_df s (mask_rows m2 d)) (mask_rows m2 d)
               col1 r1 eq_refl).
    rewrite filter_mask_masked, E1. cbn [option_map].
    rewrite (apply_filter_session s d col2 r2 Hd), E2. reflexivity.
  - now rewrite (apply_filter_session s d col1 r1 Hd), E1,
                (apply_filter_session s d col2 r2 Hd), E2.
Qed.

Lemma aligned_mask_rows mask d :
  aligned d -> List.length mask = nrows d -> aligned (mask_rows mask d).
Proof.
  intros Ha Hl. unfold aligned, mask_rows, nrows in *. cbn [index columns].
  rewrite Forall_map. eapply Forall_impl; [|exact Ha].
  intros c Hc. cbn [snd values].
  rewrite (length_select mask (values (snd c))) by congruence.
  rewrite (length_select mask (index d)) by congruence. reflexivity.
Qed.

Lemma get_loc_mask_rows mask d col :
  get_loc col (columns (mask_rows mask d)) = get_loc col (columns d).
Proof.
  unfold mask_rows. cbn [columns].
  induction (columns d) as [|c cs IH]; [reflexivity|].
  cbn [map get_loc fst]. now rewrite IH.
Qed.

Lemma filter_filter {A : Type} (p q : A -> bool) : forall l,
  filter q (filter p l) = filter (fun x => p x && q x) l.
Proof.
  induction l as [|x l IH]; [reflexivity|].
  cbn [filter]. destruct (p x) eqn:E; cbn [andb filter]; [|exact IH].
  destruct (q x); now rewrite IH.
Qed.

(** X12.  Two range filters in a row, on numeric columns at positions
    [k1] and [k2], keep exactly the rows of the original table that pass
    both, in their order. *)
Theorem filters_intersect s d col1 c1 k1 lo1 hi1 col2 c2 k2 lo2 hi2 :
  df s = Some d -> aligned d ->
  getitem d col1 = inr c1 -> get_loc col1 (columns d) = Some k1 ->
  is_numeric_dtype c1 = true ->
  getitem d col2 = inr c2 -> get_loc col2 (columns d) = Some k2 ->
  is_numeric_dtype c2 = true ->
  exists d2,
    session (apply_filter col2 (lo2, hi2)
               (session (apply_filter col1 (lo1, hi1) s)))
    = with_df s d2
    /\ rows d2
       = filter (fun r => between lo1 hi1 (nth (S k1) r VNaN)
                          && between lo2 hi2 (nth (S k2) r VNaN))
                (rows d).
Proof.
  intros Hd Ha G1 L1 N1 G2 L2 N2.
  destruct (FilterRange.apply_filter_rows s d col1 c1 k1 lo1 hi1
              Hd Ha G1 L1 N1) as [E1 R1].
  set (d1 := mask_rows (map (between lo1 hi1) (values c1)) d) in *.
  assert (Ha1 : aligned d1).
  { apply aligned_mask_rows; [exact Ha|]. rewrite length_map.
    apply Invariants.getitem_In in G1.
    unfold aligned in Ha. rewrite Forall_forall in Ha. exact (Ha _ G1). }
  rewrite E1. cbn [session].
  pose proof (FilterRange.getitem_mask_rows
                (map (between lo1 hi1) (values c1)) d col2 c2 G2) as G2'.
  fold d1 in G2'.
  assert (L2' : get_loc col2 (columns d1) = Some k2)
    by (unfold d1; now rewrite get_loc_mask_rows).
  destruct (FilterRange.apply_filter_rows (with_df s d1) d1 col2 _ k2 lo2 hi2
              eq_refl Ha1 G2' L2' N2) as [E2 R2].
  rewrite E2. cbn [session]. eexists. split; [reflexivity|].
  rewrite R2, R1. apply filter_filter.
Qed.

Lemma filters_intersect_witness :
  exists d2,
    session (apply_filter "b" (F64.of_Z 10, F64.of_Z 30)
               (session (apply_filter "a" (F64.of_Z 2, F64.of_Z 3)
                           session_ab)))
    = with_df session_ab d2
    /\ rows d2 = [[VInt 2; VInt 3; VFloat (F64.of_Z 30)]].
Proof.
  assert (Ha : aligned table_ab) by (repeat constructor).
  destruct (filters_intersect session_ab table_ab
              "a" col_a 0 (F64.of_Z 2) (F64.of_Z 3)
              "b" col_b 1 (F64.of_Z 10) (F64.of_Z 30)
              eq_refl Ha eq_refl eq_refl eq_refl eq_refl eq_refl eq_refl)
    as [d2 [E R]].
  exists d2. split; [exact E|]. rewrite R. reflexivity.
Defined.

(** A present cell of a numeric column converts to a number. *)
Lemma cell_float t v :
  t <> object_ -> cell_ok t v = true -> isna v = false ->
  exists q, to_float v = Some q /\ F64.is_nan q = false.
Proof.
  intros Ht Hv Hn.
  destruct t, v; try discriminate; try congruence; cbn [to_float];
    eexists; (split; [reflexivity|]).
  - apply F64Facts.of_Z_number.
  - cbn [cell_ok] in Hv. now apply negb_true_iff in Hv.
  - now destruct b.
Qed.

(** The order of the cells of a numeric column is total, and the
    conversion to float64 keeps it. *)
Lemma cell_leb_total t a b :
  t <> object_ ->
  cell_ok t a = true -> isna a = false ->
  cell_ok t b = true -> isna b = false ->
  cell_leb a b = false -> cell_leb b a = true.
Proof.
  intros Ht Ha Na Hb Nb.
  destruct t, a, b; try discriminate; try congruence; cbn [cell_leb cell_ok] in *.
  - intros H. apply Z.leb_gt in H. apply Z.leb_le. lia.
  - apply negb_true_iff in Ha, Hb. now apply F64Facts.leb_total.
  - now destruct b0, b.
Qed.

Lemma cell_leb_float t a b :
  t <> object_ ->
  cell_ok t a = true -> isna a = false ->
  cell_ok t b = true -> isna b = false ->
  cell_leb a b = true ->
  exists x y, to_float a = Some x /\ to_float b = Some y
              /\ F64.leb x y = true.
Proof.
  intros Ht Ha Na Hb Nb.
  destruct t, a, b; try discriminate; try congruence;
    cbn [cell_leb cell_ok to_float] in *; intros H;
    eexists; eexists; (split; [reflexivity|]); (split; [reflexivity|]).
  - apply Rounding.of_Z_mono. now apply Z.leb_le.
  - exact H.
  - now destruct b0, b.
Qed.

(** The least present cell, as a float, is below every present cell as a
    float; the greatest is above. *)
Lemma fold_least t :
  t <> object_ ->
  forall l a,
    (cell_ok t a = true /\ isna a = false) ->
    Forall (fun v => cell_ok t v = true /\ isna v = false) l ->
    exists lo,
      to_float (fold_left (fun a b => if cell_leb a b then a else b) l a)
      = Some lo
      /\ forall x q, (x = a \/ In x l) -> to_float x = Some q ->
                     F64.leb lo q = true.
Proof.
  intros Ht. induction l as [|b l IH]; intros a [Ha Na] Hl; cbn [fold_left].
  - destruct (cell_float t a Ht Ha Na) as [q [E N]].
    exists q. split; [exact E|]. intros x q' [Hx | []] E'. subst x.
    rewrite E in E'. injection E' as <-. now apply F64Facts.leb_refl.
  - inversion Hl as [|? ? [Hb Nb] Hl']; subst.
    destruct (cell_leb a b) eqn:C.
    + destruct (IH a (conj Ha Na) Hl') as [lo [E L]].
      exists lo. split; [exact E|].
      intros x q [Hx | [Hx | Hx]] Hq.
      * apply (L x q); [now left | exact Hq].
      * subst x.
        destruct (cell_leb_float t a b Ht Ha Na Hb Nb C)
          as [x1 [y1 [E1 [E2 Le]]]].
        rewrite Hq in E2. injection E2 as <-.
        eapply F64Facts.leb_trans; [|exact Le].
        apply (L a x1); [now left | exact E1].
      * apply (L x q); [now right | exact Hq].
    + destruct (IH b (conj Hb Nb) Hl') as [lo [E L]].
      exists lo. split; [exact E|].
      intros x q [Hx | [Hx | Hx]] Hq.
      * subst x.
        pose proof (cell_leb_total t a b Ht Ha Na Hb Nb C) as C'.
        destruct (cell_leb_float t b a Ht Hb Nb Ha Na C')
          as [x1 [y1 [E1 [E2 Le]]]].
        rewrite Hq in E2. injection E2 as <-.
        eapply F64Facts.leb_trans; [|exact Le].
        apply (L b x1); [now left | exact E1].
      * subst x. apply (L b q); [now left | exact Hq].
      * apply (L x q); [now right | exact Hq].
Qed.

Lemma fold_greatest t :
  t <> object_ ->
  forall l a,
    (cell_ok t a = true /\ isna a = false) ->
    Forall (fun v => cell_ok t v = true /\ isna v = false) l ->
    exists hi,
      to_float (fold_left (fun a b => if cell_leb a b then b else a) l a)
      = Some hi
      /\ forall x q, (x = a \/ In x l) -> to_float x = Some q ->
                     F64.leb q hi = true.
Proof.
  intros Ht. induction l as [|b l IH]; intros a [Ha Na] Hl; cbn [fold_left].
  - destruct (cell_float t a Ht Ha Na) as [q [E N]].
    exists q. split; [exact E|]. intros x q' [Hx | []] E'. subst x.
    rewrite E in E'. injection E' as <-. now apply F64Facts.leb_refl.
  - inversion Hl as [|? ? [Hb Nb] Hl']; subst.
    destruct (cell_leb a b) eqn:C.
    + destruct (IH b (conj Hb Nb) Hl') as [hi [E L]].
      exists hi. split; [exact E|].
      intros x q [Hx | [Hx | Hx]] Hq.
      * subst x.
        destruct (cell_leb_float t a b Ht Ha Na Hb Nb C)
          as [x1 [y1 [E1 [E2 Le]]]].
        rewrite Hq in E1. injection E1 as <-.
        eapply F64Facts.leb_trans; [exact Le|].
        apply (L b y1); [now left | exact E2].
      * subst x. apply (L b q); [now left | exact Hq].
      * apply (L x q); [now right | exact Hq].
    + destruct (IH a (conj Ha Na) Hl') as [hi [E L]].
      exists hi. split; [exact E|].
      intros x q [Hx | [Hx | Hx]] Hq.
      * apply (L x q); [now left | exact Hq].
      * subst x.
        pose proof (cell_leb_total t a b Ht Ha Na Hb Nb C) as C'.
        destruct (cell_leb_float t b a Ht Hb Nb Ha Na C')
          as [x1 [y1 [E1 [E2 Le]]]].
        rewrite Hq in E1. injection E1 as <-.
        eapply F64Facts.leb_trans; [exact Le|].
        apply (L a y1); [now left | exact E2].
      * apply (L x q); [now right | exact Hq].
Qed.

(** Every present value of a numeric column whose cells have its dtype
    lies within its default range. *)
Lemma default_range_covers c lo hi v q :
  is_numeric_dtype c = true ->
  forallb (cell_ok (dtype c)) (values c) = true ->
  default_range c = Some (lo, hi) ->
  In v (values c) -> to_float v = Some q ->
  F64.leb lo q = true /\ F64.leb q hi = true.
Proof.
  intros Hn Ht H Hv Hq.
  assert (Hd : dtype c <> object_).
  { unfold is_numeric_dtype in Hn. intros E. rewrite E in Hn. discriminate. }
  assert (Hp : Forall (fun v => cell_ok (dtype c) v = true /\ isna v = false)
                      (present c)).
  { apply Forall_forall. intros x Hx. apply filter_In in Hx.
    destruct Hx as [Hx Nx]. rewrite forallb_forall in Ht.
    split; [now apply Ht | now apply negb_true_iff in Nx]. }
  assert (Hin : In v (present c)).
  { apply filter_In. split; [exact Hv|]. now destruct v. }
  unfold default_range, series_min, series_max in H.
  destruct (present c) as [|a l]; [discriminate|].
  inversion Hp as [|? ? Ha Hl]; subst.
  destruct (fold_least (dtype c) Hd l a Ha Hl) as [lo' [E1 L1]],
           (fold_greatest (dtype c) Hd l a Ha Hl) as [hi' [E2 L2]].
  rewrite E1, E2 in H. injection H as <- <-.
  assert (Hv' : v = a \/ In v l) by (destruct Hin as [<- | Hin]; auto).
  split; [now apply (L1 v q) | now apply (L2 v q)].
Qed.

(** X13.  Pressing "Apply Filter" with the slider left at its default,
    the column's minimum and maximum, on a numeric column whose cells have
    its dtype, leaves the same table as "Drop Rows" on that column: it
    removes the rows with a missing value there and no other. *)
Theorem default_filter_is_drop_rows np_sum s d col c r :
  df s = Some d ->
  getitem d col = inr c ->
  is_numeric_dtype c = true ->
  forallb (cell_ok (dtype c)) (values c) = true ->
  default_range c = Some r ->
  session (apply_filter col r s)
  = session (apply_transformation np_sum col DropRows s).
Proof.
  intros Hd Hc Hn Ht Hr. destruct r as [lo hi].
  unfold apply_filter, apply_transformation, dropna.
  rewrite Hd, Hc, Hn. cbn [applied session fst snd]. do 2 f_equal.
  apply map_ext_in. intros v Hv. pose proof Ht as Ht'.
  rewrite forallb_forall in Ht. specialize (Ht v Hv).
  unfold is_numeric_dtype in Hn.
  destruct (to_float v) as [q|] eqn:Hq.
  - destruct (default_range_covers c lo hi v q Hn Ht' Hr Hv Hq) as [H1 H2].
    assert (B : between lo hi v = true).
    { apply FilterRange.between_spec. exists q. tauto. }
    rewrite B. now destruct v.
  - unfold between, ge_scalar. rewrite Hq. cbn [andb].
    destruct v; try discriminate; [|reflexivity].
    now destruct (dtype c).
Qed.

Lemma default_filter_is_drop_rows_witness :
  default_range col_b = Some (F64.of_Z 10, F64.of_Z 30)
  /\ session (apply_filter "b" (F64.of_Z 10, F64.of_Z 30) session_ab)
     = session (apply_transformation sum_in_order "b" DropRows session_ab).
Proof.
  split; [reflexivity|].
  apply (default_filter_is_drop_rows sum_in_order session_ab table_ab
           "b" col_b (F64.of_Z 10, F64.of_Z 30));
    reflexivity.
Defined.

End Filters.

(** ** How drops compose *)

Module Drops.
Import Lists Pandas App Examples ListFacts.

Lemma mem_app x l1 l2 : mem x (l1 ++ l2) = mem x l1 || mem x l2.
Proof. unfold mem. apply existsb_app. Qed.

Lemma In_names_kept x labels : forall cs : list (string * Series),
  In x (map fst (filter (fun c => negb (mem (fst c) labels)) cs))
  <-> In x (map fst cs) /\ ~ In x labels.
Proof.
  intros cs. rewrite !in_map_iff. split.
  - intros [c [<- Hc]]. apply filter_In in Hc. destruct Hc as [Hc Hm].
    split; [now exists c|]. rewrite <- mem_In.
    now destruct (mem (fst c) labels).
  - intros [[c [<- Hc]] Hn]. exists c. split; [reflexivity|].
    apply filter_In. split; [exact Hc|]. rewrite <- mem_In in Hn.
    now destruct (mem (fst c) labels).
Qed.

Lemma execute_drop_offered s d labels :
  df s = Some d -> incl labels (column_names d) ->
  execute_drop labels s
  = {| session :=
         with_df s {| index := index d;
                      columns := filter (fun c => negb (mem (fst c) labels))
                                        (columns d) |};
       messages := [success "Columns removed successfully."];
       control := Rerun |}.
Proof.
  intros Hd H. unfold execute_drop.
  now rewrite Hd, (DropColumns.drop_offered d labels H).
Qed.

Lemma kept_twice l1 l2 : forall cs : list (string * Series),
  filter (fun c => negb (mem (fst c) l2))
         (filter (fun c => negb (mem (fst c) l1)) cs)
  = filter (fun c => negb (mem (fst c) (l1 ++ l2))) cs.
Proof.
  intros cs. rewrite Filters.filter_filter. apply filter_ext.
  intros c. now rewrite mem_app, negb_orb.
Qed.

Lemma kept_swap l1 l2 : forall cs : list (string * Series),
  filter (fun c => negb (mem (fst c) (l2 ++ l1))) cs
  = filter (fun c => negb (mem (fst c) (l1 ++ l2))) cs.
Proof.
  intros cs. apply filter_ext. intros c.
  now rewrite !mem_app, orb_comm.
Qed.

(** X14.  Drops compose.  For two selections of existing columns with no
    name in common, dropping one and then the other succeeds in either
    order and is the same run as dropping both at once.  Dropping an empty
    selection reports success and leaves the session as it was. *)
Theorem execute_drop_composes s d l1 l2 :
  df s = Some d ->
  incl l1 (column_names d) -> incl l2 (column_names d) ->
  (forall x, In x l1 -> ~ In x l2) ->
  execute_drop l2 (session (execute_drop l1 s)) = execute_drop (l1 ++ l2) s
  /\ execute_drop l1 (session (execute_drop l2 s)) = execute_drop (l1 ++ l2) s
  /\ execute_drop [] s
     = {| session := s;
          messages := [success "Columns removed successfully."];
          control := Rerun |}.
Proof.
  intros Hd H1 H2 Hdis.
  assert (H12 : incl (l1 ++ l2) (column_names d)) by now apply incl_app.
  rewrite (execute_drop_offered s d (l1 ++ l2) Hd H12).
  split; [|split].
  - rewrite (execute_drop_offered s d l1 Hd H1). cbn [session].
    set (d1 := {| index := index d;
                  columns := filter (fun c => negb (mem (fst c) l1))
                                    (columns d) |}).
    rewrite (execute_drop_offered (with_df s d1) d1 l2 eq_refl); unfold d1.
    + cbn [index columns with_df file_name]. now rewrite kept_twice.
    + intros x Hx. unfold column_names. cbn [columns].
      apply In_names_kept. split; [now apply H2|].
      intros Hx1. exact (Hdis x Hx1 Hx).
  - rewrite (execute_drop_offered s d l2 Hd H2). cbn [session].
    set (d2 := {| index := index d;
                  columns := filter (fun c => negb (mem (fst c) l2))
                                    (columns d) |}).
    rewrite (execute_drop_offered (with_df s d2) d2 l1 eq_refl); unfold d2.
    + cbn [index columns with_df file_name].
      now rewrite kept_twice, kept_swap.
    + intros x Hx. unfold column_names. cbn [columns].
      apply In_names_kept. split; [now apply H1|].
      intros Hx2. exact (Hdis x Hx Hx2).
  - rewrite (execute_drop_offered s d [] Hd) by (intros x []).
    cbn [mem existsb negb].
    assert (E : filter (fun _ : string * Series => true) (columns d) = columns d).
    { induction (columns d) as [|c cs IH]; [reflexivity|].
      cbn [filter]. now rewrite IH. }
    rewrite E, Impute.frame_eta, (Impute.session_eta s d Hd).
    reflexivity.
Qed.

Lemma execute_drop_composes_witness :
  execute_drop ["city"] (session (execute_drop ["a"] session_abc))
  = execute_drop ["a"; "city"] session_abc
  /\ option_map column_names
       (df (session (execute_drop ["a"; "city"] session_abc)))
     = Some ["b"].
Proof.
  assert (H1 : incl ["a"] (column_names table_abc)).
  { intros x [<- | []]. now left. }
  assert (H2 : incl ["city"] (column_names table_abc)).
  { intros x [<- | []]. right; right; now left. }
  assert (Hdis : forall x, In x ["a"] -> ~ In x ["city"]).
  { intros x [<- | []] [E | []]. discriminate. }
  destruct (execute_drop_composes session_abc table_abc ["a"] ["city"]
              eq_refl H1 H2 Hdis) as [E _].
  split; [exact E | reflexivity].
Defined.

Lemma find_kept col labels : forall cs : list (string * Series),
  ~ In col labels ->
  find (fun c => String.eqb (fst c) col)
       (filter (fun c => negb (mem (fst c) labels)) cs)
  = find (fun c => String.eqb (fst c) col) cs.
Proof.
  intros cs Hn. induction cs as [|c cs IH]; [reflexivity|].
  cbn [filter find]. destruct (String.eqb (fst c) col) eqn:E.
  - apply String.eqb_eq in E. rewrite <- mem_In in Hn. rewrite E.
    destruct (mem col labels); [now elim Hn|].
    cbn [negb find]. rewrite <- E at 1. now rewrite String.eqb_refl.
  - destruct (negb (mem (fst c) labels)); [|exact IH].
    cbn [find]. now rewrite E.
Qed.

Lemma kept_masked mask labels : forall cs : list (string * Series),
  filter (fun c => negb (mem (fst c) labels))
         (map (fun c => (fst c, {| dtype := dtype (snd c);
                                   values := select mask (values (snd c)) |}))
              cs)
  = map (fun c => (fst c, {| dtype := dtype (snd c);
                             values := select mask (values (snd c)) |}))
        (filter (fun c => negb (mem (fst c) labels)) cs).
Proof.
  induction cs as [|c cs IH]; [reflexivity|].
  cbn [map filter fst]. destruct (negb (mem (fst c) labels));
    cbn [map]; now rewrite IH.
Qed.

(** X15.  A drop and a range filter on a column that is not dropped
    commute: the session is the same whichever is run first. *)
Theorem drop_filter_commute s d cols col r :
  df s = Some d ->
  incl cols (column_names d) ->
  ~ In col cols ->
  session (apply_filter col r (session (execute_drop cols s)))
  = session (execute_drop cols (session (apply_filter col r s))).
Proof.
  intros Hd Hoff Hn.
  rewrite (execute_drop_offered s d cols Hd Hoff). cbn [session].
  set (d1 := {| index := index d;
                columns := filter (fun c => negb (mem (fst c) cols))
                                  (columns d) |}).
  rewrite (Filters.apply_filter_session (with_df s d1) d1 col r eq_refl).
  rewrite (Filters.apply_filter_session s d col r Hd).
  assert (Em : filter_mask d1 col r = filter_mask d col r).
  { unfold filter_mask, getitem, d1. cbn [columns].
    now rewrite (find_kept col cols (columns d) Hn). }
  rewrite Em. destruct (filter_mask d col r) as [m|].
  - rewrite (execute_drop_offered (with_df s (mask_rows m d)) (mask_rows m d)
               cols eq_refl)
      by (unfold offered; now rewrite FilterRange.mask_rows_names).
    cbn [session with_df file_name]. unfold mask_rows, d1.
    cbn [index columns]. now rewrite kept_masked.
  - now rewrite (execute_drop_offered s d cols Hd Hoff).
Qed.

Lemma drop_filter_commute_witness :
  session (apply_filter "a" (F64.of_Z 2, F64.of_Z 3) (session (execute_drop ["b"] session_ab)))
  = session (execute_drop ["b"] (session (apply_filter "a" (F64.of_Z 2, F64.of_Z 3) session_ab))).
Proof.
  apply (drop_filter_commute session_ab table_ab ["b"] "a" (F64.of_Z 2, F64.of_Z 3) eq_refl).
  - intros x [<- | []]. right; now left.
  - intros [E | []]. discriminate.
Defined.

(** X16.  Dropping columns that are neither float64 nor int64 does not
    change what the correlation tab shows. *)
Theorem correlation_ignores_dropped_text s d cols :
  df s = Some d ->
  incl cols (column_names d) ->
  (forall n c, In (n, c) (columns d) -> In n cols ->
               dtype c = object_ \/ dtype c = bool_) ->
  exists d',
    df (session (execute_drop cols s)) = Some d'
    /\ forall pearson, correlation_tab pearson d' = correlation_tab pearson d.
Proof.
  intros Hd Hoff Ht.
  rewrite (execute_drop_offered s d cols Hd Hoff). cbn [session with_df df].
  eexists. split; [reflexivity|]. intros pearson.
  unfold correlation_tab.
  assert (E : select_dtypes
                {| index := index d;
                   columns := filter (fun c => negb (mem (fst c) cols))
                                     (columns d) |}
              = select_dtypes d).
  { unfold select_dtypes. cbn [index columns]. f_equal.
    rewrite Filters.filter_filter. apply filter_ext_in.
    intros [n c] Hin. cbn [fst snd].
    destruct (mem n cols) eqn:M; [|reflexivity].
    apply mem_In in M. destruct (Ht n c Hin M) as [-> | ->]; reflexivity. }
  now rewrite E.
Qed.

Lemma correlation_ignores_dropped_text_witness :
  exists d',
    df (session (execute_drop ["city"] session_abc)) = Some d'
    /\ correlation_tab pearson_self d' = correlation_tab pearson_self table_abc.
Proof.
  assert (Hoff : incl ["city"] (column_names table_abc)).
  { intros x [<- | []]. right; right; now left. }
  assert (Ht : forall n c, In (n, c) (columns table_abc) -> In n ["city"] ->
                           dtype c = object_ \/ dtype c = bool_).
  { intros n c Hin [<- | []].
    destruct Hin as [E | [E | [E | []]]]; try discriminate.
    injection E as <-. now left. }
  destruct (correlation_ignores_dropped_text session_abc table_abc ["city"]
              eq_refl Hoff Ht) as [d' [E C]].
  exists d'. split; [exact E | apply C].
Defined.

End Drops.

(** ** File names, uploads and the exported text *)

Module Files.
Import Lists Pandas App Examples ListFacts.
Local Open Scope string_scope.

Lemma length_append (a b : string) :
  String.length (a ++ b) = (String.length a + String.length b)%nat.
Proof. induction a as [|x a IH]; cbn; [reflexivity | now rewrite IH]. Qed.

Lemma substring_all : forall s, substring 0 (String.length s) s = s.
Proof. induction s as [|x s IH]; cbn; [reflexivity | now rewrite IH]. Qed.

Lemma substring_split : forall n s,
  (n <= String.length s)%nat ->
  s = substring 0 n s ++ substring n (String.length s - n) s.
Proof.
  induction n as [|n IH]; intros s H.
  - rewrite Nat.sub_0_r, substring_all. now destruct s.
  - destruct s as [|x s]; cbn in H; [lia|].
    cbn [substring String.length Nat.sub append]. f_equal.
    apply IH. lia.
Qed.

Lemma substring_suffix : forall p s,
  substring (String.length p) (String.length s) (p ++ s) = s.
Proof.
  induction p as [|x p IH]; intros s; cbn [String.length append].
  - apply substring_all.
  - cbn [substring]. apply IH.
Qed.

(** [endswith] holds exactly of the strings that are some prefix followed
    by the suffix. *)
Lemma endswith_spec s suffix :
  endswith s suffix = true <-> exists p, s = p ++ suffix.
Proof.
  unfold endswith. rewrite andb_true_iff, Nat.leb_le, String.eqb_eq. split.
  - intros [Hl He].
    exists (substring 0 (String.length s - String.length suffix) s).
    assert (Hn : (String.length s - String.length suffix
                  <= String.length s)%nat) by lia.
    pose proof (substring_split _ s Hn) as E.
    replace (String.length s - (String.length s - String.length suffix))%nat
      with (String.length suffix) in E by lia.
    now rewrite He in E.
  - intros [p ->]. rewrite length_append. split; [lia|].
    replace (String.length p + String.length suffix - String.length suffix)%nat
      with (String.length p) by lia.
    apply substring_suffix.
Qed.

(** No name ends in both suffixes. *)
Lemma csv_not_xlsx s :
  endswith s ".csv" = true -> endswith s ".xlsx" = false.
Proof.
  intros H. apply not_true_is_false. intros H'.
  apply endswith_spec in H. apply endswith_spec in H'.
  destruct H as [p E], H' as [p' E'].
  assert (Hv : endswith s "v" = true).
  { apply endswith_spec. exists (p ++ ".cs"). rewrite E.
    now rewrite CsvFacts.append_assoc. }
  assert (Hx : endswith s "x" = true).
  { apply endswith_spec. exists (p' ++ ".xls"). rewrite E'.
    now rewrite CsvFacts.append_assoc. }
  unfold endswith in Hv, Hx. apply andb_true_iff in Hv, Hx.
  destruct Hv as [_ Hv], Hx as [_ Hx].
  apply String.eqb_eq in Hv, Hx. cbn [String.length] in Hv, Hx.
  rewrite Hv in Hx. discriminate.
Qed.

Section WithReaders.
Variable read_csv : File -> string + DataFrame.
Variable read_excel : File -> string + DataFrame.

(** X17.  [load_data] chooses the parser by the name's last characters,
    case-sensitively: a name that is a prefix followed by [.csv] goes to
    [read_csv], one followed by [.xlsx] goes to [read_excel], and any
    other name reaches neither parser. *)
Theorem load_data_dispatch file :
  ((exists p, name file = p ++ ".csv") ->
   load_data read_csv read_excel file
   = match read_csv file with
     | inr d => (Some d, [])
     | inl e => (None, [error ("❌ Error loading file: " ++ e)])
     end)
  /\ ((exists p, name file = p ++ ".xlsx") ->
      load_data read_csv read_excel file
      = match read_excel file with
        | inr d => (Some d, [])
        | inl e => (None, [error ("❌ Error loading file: " ++ e)])
        end)
  /\ ((forall p, name file <> p ++ ".csv") ->
      (forall p, name file <> p ++ ".xlsx") ->
      load_data read_csv read_excel file = (None, [])).
Proof.
  split; [|split].
  - intros H. apply endswith_spec in H. now apply Load.load_data_csv.
  - intros H. apply endswith_spec in H. apply Load.load_data_xlsx; [|exact H].
    destruct (endswith (name file) ".csv") eqn:E; [|reflexivity].
    apply csv_not_xlsx in E. congruence.
  - intros H1 H2. apply Load.load_data_other_suffix.
    + apply not_true_is_false. intros E. apply endswith_spec in E.
      destruct E as [p E]. exact (H1 p E).
    + apply not_true_is_false. intros E. apply endswith_spec in E.
      destruct E as [p E]. exact (H2 p E).
Qed.
End WithReaders.

Lemma load_data_dispatch_witness :
  load_data (rejecting "csv") reading_ab {| name := "book.xlsx"; content := "" |}
  = (Some table_ab, []).
Proof.
  apply (proj1 (proj2 (load_data_dispatch (rejecting "csv") reading_ab
                         {| name := "book.xlsx"; content := "" |}))).
  exists "book". reflexivity.
Defined.

Section WithFormat.
Variable slider_accepts : F64.float -> F64.float -> bool.
Variable quotes_cr : bool.
Variable fmt : Value -> string.

(** X18.  When no column name and no printed cell holds a line feed, the
    exported text has exactly one line for the header and one per row. *)
Theorem to_csv_line_count d :
  Forall (Forall (fun f => count_newlines f = 0%nat))
         (to_csv_records fmt d) ->
  count_newlines (to_csv quotes_cr fmt d) = S (nrows d).
Proof.
  intros H. unfold to_csv.
  rewrite CsvFacts.count_newlines_records by exact H.
  unfold to_csv_records. cbn [List.length]. rewrite length_map.
  unfold cells. now rewrite Download.length_transpose.
Qed.

Section WithReaders.
Variable read_csv : File -> string + DataFrame.
Variable read_excel : File -> string + DataFrame.
Variable np_sum : list F64.float -> F64.float.

(** X19.  After a successful upload, whatever the session held before and
    whatever drops, imputations and filters follow, the session holds a
    table no larger than the uploaded one; a download that the page
    offers is the CSV of that table under the name [processed_] followed
    by the uploaded file's name; and the page does offer it when the
    selected filter column is in the table and, if numeric, has a range
    the slider accepts. *)
Theorem download_after_upload file s d shown actions filter_col :
  load_data read_csv read_excel file = (Some d, shown) ->
  exists d',
    df (replay np_sum actions
          (session (ingestion read_csv read_excel (Some file) s)))
    = Some d'
    /\ within d' d
    /\ (forall data fname,
          download slider_accepts quotes_cr fmt filter_col
            (replay np_sum actions
               (session (ingestion read_csv read_excel (Some file) s)))
          = Offered data fname ->
          fname = "processed_" ++ name file
          /\ data = convert_df quotes_cr fmt d')
    /\ (forall col c,
          filter_col = Some col -> getitem d' col = inr c ->
          (is_numeric_dtype c = true ->
           slider_accepts (min_val c) (max_val c) = true) ->
          download slider_accepts quotes_cr fmt filter_col
            (replay np_sum actions
               (session (ingestion read_csv read_excel (Some file) s)))
          = Offered (convert_df quotes_cr fmt d')
                    ("processed_" ++ name file)).
Proof.
  intros H. unfold ingestion. rewrite H. cbn [session].
  set (s1 := {| df := Some d; file_name := Some (name file) |}).
  destruct (Invariants.replay_bounds np_sum actions s1) as [F [_ G]].
  destruct (G d eq_refl) as [d' [E W]].
  exists d'. split; [exact E|]. split; [exact W|].
  unfold download. rewrite E, F. cbn [s1 file_name str_of]. split.
  - intros data fname.
    destruct filter_col as [col|]; [|discriminate].
    destruct (getitem d' col) as [e|c]; [discriminate|].
    destruct (is_numeric_dtype c
              && negb (slider_accepts (min_val c) (max_val c)));
      [discriminate|].
    intros O. injection O as <- <-. split; reflexivity.
  - intros col c -> Hc Hs. rewrite Hc.
    destruct (is_numeric_dtype c); [|reflexivity].
    now rewrite (Hs eq_refl).
Qed.
End WithReaders.
End WithFormat.

Lemma to_csv_line_count_witness :
  count_newlines (to_csv false fmt_plain table_ab) = 4%nat.
Proof.
  apply (to_csv_line_count false fmt_plain table_ab).
  repeat constructor.
Defined.

(** Upload [data.csv], drop [b], leave the filter on [a]: the page offers
    [a\n1\n2\n3\n] as [processed_data.csv]. *)
Lemma download_after_upload_witness :
  download any_slider false fmt_plain (Some "a")
    (replay sum_in_order [ExecuteDrop ["b"]]
       (session (ingestion reading_ab (rejecting "xlsx")
                   (Some {| name := "data.csv"; content := "" |})
                   session_a_city)))
  = Offered (list_byte_of_string
               ("a" ++ String Csv.lf "1" ++ String Csv.lf "2"
                ++ String Csv.lf "3" ++ String Csv.lf "")%string)
            "processed_data.csv".
Proof.
  destruct (download_after_upload any_slider false fmt_plain
              reading_ab (rejecting "xlsx") sum_in_order
              {| name := "data.csv"; content := "" |} session_a_city
              table_ab [] [ExecuteDrop ["b"]] (Some "a") eq_refl)
    as [d' [E [_ [_ O]]]].
  injection E as <-.
  rewrite (O "a" col_a eq_refl eq_refl (fun _ => eq_refl)).
  reflexivity.
Defined.

End Files.

(** ** A filter that keeps nothing *)

Module Emptied.
Import Lists Pandas App Examples ListFacts.

Lemma select_none {A B : Type} (p : A -> bool) : forall (c : list A) (l : list B),
  (forall v, In v c -> p v = false) -> select (map p c) l = [].
Proof.
  induction c as [|x c IH]; intros l H; [reflexivity|].
  destruct l as [|y l]; [reflexivity|]. cbn [map select].
  rewrite (H x) by now left. apply IH. intros v Hv. apply H. now right.
Qed.

Lemma total_no_cells : forall cs : list (string * Series),
  Forall (fun c => values (snd c) = []) cs ->
  total (map (fun c => (fst c, isnull_sum (snd c))) cs) = 0%nat.
Proof.
  induction cs as [|c cs IH]; intros H; [reflexivity|].
  inversion H as [|? ? Hc Hcs]; subst.
  cbn [map total fold_right snd]. fold (total (map (fun c => (fst c, isnull_sum (snd c))) cs)).
  rewrite (IH Hcs). unfold isnull_sum. now rewrite Hc.
Qed.

(** X20.  When no cell of a numeric column lies within the bounds,
    "Apply Filter" still succeeds and leaves a table with every column
    and no row.  On that table the correlation tab says "Not enough
    numeric columns", however many numeric columns there are, and the
    missing-data tab says the dataset is clean. *)
Theorem apply_filter_keeping_nothing s d col c lo hi :
  df s = Some d ->
  getitem d col = inr c ->
  is_numeric_dtype c = true ->
  (forall v, In v (values c) -> between lo hi v = false) ->
  exists d',
    apply_filter col (lo, hi) s
    = {| session := with_df s d';
         messages := [success "Filter applied!"];
         control := Rerun |}
    /\ nrows d' = 0%nat
    /\ column_names d' = column_names d
    /\ numeric_columns d' = numeric_columns d
    /\ (forall pearson, correlation_tab pearson d' = NotEnough not_enough)
    /\ missing_tab d' = Clean dataset_clean.
Proof.
  intros Hd Hc Hn Hout.
  exists (mask_rows (map (between lo hi) (values c)) d).
  split. { unfold apply_filter. now rewrite Hd, Hc, Hn. }
  assert (Hi : index (mask_rows (map (between lo hi) (values c)) d) = []).
  { unfold mask_rows. cbn [index]. now apply select_none. }
  split. { unfold nrows. now rewrite Hi. }
  split. { apply FilterRange.mask_rows_names. }
  split.
  { unfold numeric_columns, select_dtypes, mask_rows. cbn [columns].
    induction (columns d) as [|x cs IH]; [reflexivity|].
    cbn [map filter snd dtype].
    destruct (dtype (snd x)); cbn [List.length]; now rewrite ?IH. }
  split.
  { intros pearson. unfold correlation_tab, empty, select_dtypes.
    cbn [index]. now rewrite Hi. }
  unfold missing_tab, isnull_sums.
  rewrite total_no_cells; [reflexivity|].
  unfold mask_rows. cbn [columns]. rewrite Forall_map.
  apply Forall_forall. intros x _. cbn [snd values]. now apply select_none.
Qed.

Lemma apply_filter_keeping_nothing_witness :
  exists d',
    apply_filter "a" (F64.of_Z 4, F64.of_Z 9) session_ab
    = {| session := with_df session_ab d';
         messages := [success "Filter applied!"];
         control := Rerun |}
    /\ nrows d' = 0%nat
    /\ numeric_columns d' = 2%nat
    /\ correlation_tab pearson_self d' = NotEnough not_enough.
Proof.
  assert (Hout : forall v, In v (values col_a) -> between (F64.of_Z 4) (F64.of_Z 9) v = false).
  { intros v [<- | [<- | [<- | []]]]; reflexivity. }
  destruct (apply_filter_keeping_nothing session_ab table_ab "a" col_a
              (F64.of_Z 4) (F64.of_Z 9)
              eq_refl eq_refl eq_refl Hout) as [d' [E [R [_ [N [C _]]]]]].
  exists d'. split; [exact E|]. split; [exact R|].
  split; [rewrite N; reflexivity | apply C].
Defined.

End Emptied.
